(** * simpletable.py: a shallow embedding of the class [SimpleTable]

    The Python class keeps five attributes that matter ([title], [header],
    [columns], [columnwidth], [auto_columnwidth]; [rows] is set to [None] by
    [__init__] and never touched again, so it is left out) and mutates them
    in place.  Python is dynamically typed and the keyword parser stores a
    value in its attribute before it checks the type, so the attributes hold
    arbitrary Python values here.  Methods are computations in a state and
    exception monad over the instance; [__len__] and [__eq__] neither write
    nor raise and are plain functions.

    Limits of the embedding: items are [None], booleans, integers and
    strings; a character is one [ascii]; integers are unbounded; [set]
    containers and [__repr__] are not modelled.  Strings are bounded: the
    interpreter cannot build a string of more than [sys.maxsize] characters,
    nor one that the memory of the machine has no room for; the room is the
    parameter [capacity] of the string operations.  Lists are taken to fit
    in memory. *)

From Stdlib Require Import Ascii.
From stdpp Require Import base numbers list strings pretty.

Local Open Scope Z_scope.

(** ** Python values *)

(** Items of a column or of the header.  Python accepts any object there; the
    embedding covers [None], booleans, integers and strings (one [ascii] per
    character). *)
Inductive item :=
| PyNone
| PyBool (b : bool)
| PyInt (n : Z)
| PyStr (s : string).

(** [list] and [tuple] differ in mutability ([tuple] has no [insert]) and are
    never equal to each other.  A [set] is accepted by the [isinstance] tests
    of the module as well; its iteration order is unspecified and it is not
    modelled. *)
Inductive seq_kind := ListK | TupleK.

(** A value passed as a positional or keyword argument. *)
Inductive value :=
| Atom (a : item)
| Seq (k : seq_kind) (xs : list item).

(** One element of [self.columns]. *)
Record column := Column { col_kind : seq_kind; col_items : list item }.

Global Instance item_eq_dec : EqDecision item.
Proof. solve_decision. Defined.
Global Instance seq_kind_eq_dec : EqDecision seq_kind.
Proof. solve_decision. Defined.
Global Instance value_eq_dec : EqDecision value.
Proof. solve_decision. Defined.
Global Instance column_eq_dec : EqDecision column.
Proof. solve_decision. Defined.

(** [str(x)] *)
Definition str (x : item) : string :=
  match x with
  | PyNone => "None"
  | PyBool true => "True"
  | PyBool false => "False"
  | PyInt n => pretty n
  | PyStr s => s
  end.

(** [len(s)] of a string, as a Python integer. *)
Definition len (s : string) : Z := Z.of_nat (String.length s).

(** The integer a [bool] or [int] stands for in arithmetic. *)
Definition int_of_bool (b : bool) : Z := if b then 1 else 0.

(** Python's [==] on the modelled values: [True == 1] and [False == 0] hold,
    everything else is structural; a list is never equal to a tuple. *)
Definition item_eqb (x y : item) : bool :=
  match x, y with
  | PyNone, PyNone => true
  | PyBool a, PyBool b => bool_decide (a = b)
  | PyInt a, PyInt b => bool_decide (a = b)
  | PyBool a, PyInt b | PyInt b, PyBool a => bool_decide (int_of_bool a = b)
  | PyStr a, PyStr b => bool_decide (a = b)
  | _, _ => false
  end.

Fixpoint items_eqb (xs ys : list item) : bool :=
  match xs, ys with
  | [], [] => true
  | x :: xs', y :: ys' => item_eqb x y && items_eqb xs' ys'
  | _, _ => false
  end.

Definition value_eqb (v w : value) : bool :=
  match v, w with
  | Atom a, Atom b => item_eqb a b
  | Seq k xs, Seq k' ys => bool_decide (k = k') && items_eqb xs ys
  | _, _ => false
  end.

Definition column_eqb (c d : column) : bool :=
  bool_decide (col_kind c = col_kind d) && items_eqb (col_items c) (col_items d).

Fixpoint columns_eqb (cs ds : list column) : bool :=
  match cs, ds with
  | [], [] => true
  | c :: cs', d :: ds' => column_eqb c d && columns_eqb cs' ds'
  | _, _ => false
  end.

(** ** Exceptions and outcomes *)

Inductive exn_class :=
| TypeError | ValueError | AttributeError | IndexError
| OverflowError | MemoryError.

(** [exn_msg] is [Some m] for the exceptions the module raises itself with the
    message [m], and [None] for those raised by the interpreter, whose
    message is not modelled. *)
Record exn := Exn { exn_class_of : exn_class; exn_msg : option string }.

Inductive outcome (A : Type) :=
| Return (a : A)
| Raised (e : exn).
Arguments Return {A} a.
Arguments Raised {A} e.

(** ** Built-ins used by the module *)

Definition is_none (v : value) : bool :=
  match v with Atom PyNone => true | _ => false end.

(** [isinstance(v, str)] *)
Definition isinstance_str (v : value) : bool :=
  match v with Atom (PyStr _) => true | _ => false end.

(** [isinstance(v, (tuple, list, set))] *)
Definition isinstance_seq (v : value) : bool :=
  match v with Seq _ _ => true | _ => false end.

(** [isinstance(v, int)]: [bool] is a subclass of [int]. *)
Definition isinstance_int (v : value) : bool :=
  match v with Atom (PyInt _) | Atom (PyBool _) => true | _ => false end.

(** The characters of a string, each as a one-character string. *)
Fixpoint chars (s : string) : list item :=
  match s with
  | EmptyString => []
  | String c s' => PyStr (String c EmptyString) :: chars s'
  end.

(** [iter(v)], as the list of items the iterator yields. *)
Definition py_iter (v : value) : outcome (list item) :=
  match v with
  | Seq _ xs => Return xs
  | Atom (PyStr s) => Return (chars s)
  | Atom _ => Raised (Exn TypeError None)
  end.

(** [len(v)] *)
Definition py_len (v : value) : outcome Z :=
  match v with
  | Seq _ xs => Return (Z.of_nat (length xs))
  | Atom (PyStr s) => Return (len s)
  | Atom _ => Raised (Exn TypeError None)
  end.

(** [v + 1] *)
Definition py_succ (v : value) : outcome Z :=
  match v with
  | Atom (PyInt n) => Return (n + 1)
  | Atom (PyBool b) => Return (int_of_bool b + 1)
  | _ => Raised (Exn TypeError None)
  end.

(** [sys.maxsize] of a 64-bit interpreter: the greatest length a string can
    have, and the greatest number a sequence can be repeated by. *)
Definition sys_maxsize : Z := 2 ^ 63 - 1.

(** Does a new string of [n] characters fit?  The empty string always does.
    Beyond [sys.maxsize] the length is no index and the interpreter raises
    [OverflowError] before it asks for memory; up to there it raises
    [MemoryError] when the machine has no room.  [capacity] is the length of
    the longest string the machine has room for while a method runs: a
    request up to it is granted, a request beyond it raises. *)
Definition room (capacity n : Z) : bool :=
  (n <=? 0) || ((n <=? sys_maxsize) && (n <=? capacity)).

Definition reserve (capacity n : Z) : outcome unit :=
  if n <=? 0 then Return tt
  else if n >? sys_maxsize then Raised (Exn OverflowError None)
  else if n >? capacity then Raised (Exn MemoryError None)
  else Return tt.

(** A string the interpreter has just built, by concatenation, by an
    f-string or by a format. *)
Definition alloc (capacity : Z) (s : string) : outcome string :=
  match reserve capacity (len s) with
  | Return _ => Return s
  | Raised e => Raised e
  end.

(** The string of [n] copies of the character [c], empty when [n <= 0]. *)
Definition replicate_char (c : ascii) (n : Z) : string :=
  fold_right String EmptyString (replicate (Z.to_nat n) c).

Definition spaces (n : Z) : string := replicate_char " "%char n.

(** [c * n] for a one-character string [c]: the length is checked before the
    string is built. *)
Definition repeat_char (capacity : Z) (c : ascii) (n : Z) : outcome string :=
  match reserve capacity n with
  | Return _ => Return (replicate_char c n)
  | Raised e => Raised e
  end.

(** [format(s, ">Ns")] for a string [s] and the decimal numeral [N] of [w].
    A negative [w] puts a sign in the format specification, which the string
    formatter rejects with [ValueError]; so it does a width beyond
    [sys.maxsize], which has too many digits for it.  Text longer than [w]
    is returned whole. *)
Definition format_rjust (capacity : Z) (s : string) (w : Z) : outcome string :=
  if w <? 0 then Raised (Exn ValueError None)
  else if w >? sys_maxsize then Raised (Exn ValueError None)
  else alloc capacity (spaces (w - len s) +:+ s).

(** [format(s, "^N")]: the padding is split with the smaller half on the
    left. *)
Definition format_center (capacity : Z) (s : string) (w : Z) : outcome string :=
  if w <? 0 then Raised (Exn ValueError None)
  else if w >? sys_maxsize then Raised (Exn ValueError None)
  else
    let pad := Z.max 0 (w - len s) in
    alloc capacity (spaces (pad / 2) +:+ s +:+ spaces (pad - pad / 2)).

(** [zip_longest] of the columns [cols] with [fillvalue=fill]: row [i] takes item [i] of every
    column, [fill] where a column is too short; there are as many rows as the
    longest column has items, and none when there is no column. *)
Definition longest (cols : list (list item)) : nat :=
  max_list_with length cols.

Definition zip_longest (cols : list (list item)) (fill : item) : list (list item) :=
  (fun i => (fun c => nth i c fill) <$> cols) <$> seq 0 (longest cols).

(** [enumerate(xs)] *)
Definition enumerate {A} (xs : list A) : list (nat * A) :=
  zip (seq 0 (length xs)) xs.

(** ** The instance and the monad of its methods *)

Record SimpleTable := mkSimpleTable {
  title : value;
  header : value;
  columns : list column;
  columnwidth : value;
  auto_columnwidth : value }.

Definition set_title (v : value) (self : SimpleTable) : SimpleTable :=
  mkSimpleTable v (header self) (columns self) (columnwidth self) (auto_columnwidth self).
Definition set_header (v : value) (self : SimpleTable) : SimpleTable :=
  mkSimpleTable (title self) v (columns self) (columnwidth self) (auto_columnwidth self).
Definition set_columns (cs : list column) (self : SimpleTable) : SimpleTable :=
  mkSimpleTable (title self) (header self) cs (columnwidth self) (auto_columnwidth self).
Definition set_columnwidth (v : value) (self : SimpleTable) : SimpleTable :=
  mkSimpleTable (title self) (header self) (columns self) v (auto_columnwidth self).
Definition set_auto_columnwidth (v : value) (self : SimpleTable) : SimpleTable :=
  mkSimpleTable (title self) (header self) (columns self) (columnwidth self) v.

(** A method body: it runs on the instance, returns a result or raises, and
    leaves the instance as it is at that point, also when it raises. *)
Definition M (A : Type) : Type := SimpleTable -> outcome A * SimpleTable.

Definition ret {A} (a : A) : M A := fun self => (Return a, self).
Definition raise {A} (e : exn) : M A := fun self => (Raised e, self).
Definition bind {A B} (m : M A) (k : A -> M B) : M B :=
  fun self =>
    match m self with
    | (Return a, self') => k a self'
    | (Raised e, self') => (Raised e, self')
    end.
Definition get {A} (f : SimpleTable -> A) : M A := fun self => (Return (f self), self).
Definition modify (f : SimpleTable -> SimpleTable) : M unit :=
  fun self => (Return tt, f self).
Definition lift {A} (o : outcome A) : M A := fun self => (o, self).

Notation "'let!' x ':=' m 'in' k" := (bind m (fun x => k))
  (at level 10, x name, m at level 100, k at level 200).
Notation "m ';;' k" := (bind m (fun _ => k))
  (at level 100, k at level 200, right associativity).

(** [for x in xs: acc = body(acc, x)], for a loop that updates one local
    variable. *)
Fixpoint for_in {A B} (xs : list A) (body : B -> A -> M B) (acc : B) : M B :=
  match xs with
  | [] => ret acc
  | x :: xs' => let! acc' := body acc x in for_in xs' body acc'
  end.

(** [for x in xs: body(x)] *)
Definition for_each {A} (xs : list A) (body : A -> M unit) : M unit :=
  for_in xs (fun _ x => body x) tt.

(** ** Class attributes *)

Definition hor_char : ascii := "-"%char.
Definition ver_char : string := "|".
Definition nl : string := String (ascii_of_nat 10) EmptyString.

(** ** [__automatic_columnwidth] *)

(** The inner loop: [if len(str(item)) > widest_item: widest_item = ...]. *)
Definition widest_of (items : list item) (widest_item : Z) : Z :=
  fold_left (fun w item => if len (str item) >? w then len (str item) else w)
            items widest_item.

Definition __automatic_columnwidth : M unit :=
  let widest_item := 0 in
  let! h := get header in
  let! widest_item :=
    (if is_none h then ret widest_item
     else let! items := lift (py_iter h) in ret (widest_of items widest_item)) in
  let! cols := get columns in
  let widest_item :=
    fold_left (fun w col => widest_of (col_items col) w) cols widest_item in
  modify (set_auto_columnwidth (Atom (PyInt widest_item))).

(** ** [_get_table_width] *)

Definition _get_table_width : M Z :=
  let! t := get title in
  let! table_width_title :=
    (if is_none t then ret 0
     else let! n := lift (py_len t) in ret (n + 2)) in
  let! h := get header in
  let! table_width_header :=
    (if is_none h then ret 0
     else
       let! items := lift (py_iter h) in
       for_in items
         (fun table_width_header header_item =>
            let! cw := get columnwidth in
            if is_none cw
            then ret (table_width_header + (len (str header_item) + 1))
            else let! n := lift (py_succ cw) in ret (table_width_header + n))
         0) in
  let! cols := get columns in
  let! table_width_columns :=
    (match cols with
     | [] => ret 0
     | _ :: _ =>
         let! cw := get columnwidth in
         if is_none cw
         then
           __automatic_columnwidth ;;
           let! a := get auto_columnwidth in
           let! n := lift (py_succ a) in
           ret (n * Z.of_nat (length cols))
         else
           let! n := lift (py_succ cw) in
           ret (n * Z.of_nat (length cols))
     end) in
  let table_width :=
    if table_width_header >? table_width_columns
    then table_width_header else table_width_columns in
  ret (if table_width_title >? table_width then table_width_title else table_width).

(** ** [__str__] *)

(** One cell, [f"{str(x):>{cw}s}{SimpleTable.ver_char}"].  The value of [cw]
    is spliced into the format specification.  For an integer that is a right
    justification to that width.  For a [bool] the specification reads
    [>Trues] or [>Falses] and is rejected with [ValueError].  A [str] or
    sequence [cw] would be spliced as well, but [__str__] formats a cell only
    after [_get_table_width] has evaluated [self.columnwidth + 1], which
    raises [TypeError] for those; the branch is not reached from [__str__]. *)
Definition cell (capacity : Z) (cw : value) (x : item) : M string :=
  match cw with
  | Atom (PyInt n) =>
      let! s := lift (format_rjust capacity (str x) n) in
      lift (alloc capacity (s +:+ ver_char))
  | _ => raise (Exn ValueError None)
  end.

(** The title, [f"{self.title:^{w}}"].  A list or tuple has no such format
    and raises [TypeError]; for the other non-strings [len(self.title)] has
    raised [TypeError] in [_get_table_width] before. *)
Definition format_title (capacity : Z) (t : value) (w : Z) : outcome string :=
  match t with
  | Atom (PyStr s) => format_center capacity s w
  | _ => Raised (Exn TypeError None)
  end.

(** [s += piece], where [piece] is an f-string: the f-string is built first,
    the concatenation after it. *)
Definition iadd (capacity : Z) (s piece : string) : M string :=
  let! piece := lift (alloc capacity piece) in
  lift (alloc capacity (s +:+ piece)).

Definition __str__ (capacity : Z) : M string :=
  let! cw0 := get columnwidth in
  let! cw :=
    (if is_none cw0 then __automatic_columnwidth ;; get auto_columnwidth
     else get columnwidth) in
  let! tablewidth := _get_table_width in
  let! line_str := lift (repeat_char capacity hor_char tablewidth) in
  let table_str := "" in
  let! t := get title in
  let! table_str :=
    (if is_none t then ret table_str
     else
       let! table_str := iadd capacity table_str (line_str +:+ nl) in
       let! centred := lift (format_title capacity t (tablewidth - 1)) in
       iadd capacity table_str (centred +:+ ver_char +:+ nl)) in
  let! h := get header in
  let! table_str :=
    (if is_none h then ret table_str
     else
       let! items := lift (py_iter h) in
       let! header_str :=
         for_in items
           (fun header_str header_item =>
              let! c := cell capacity cw header_item in
              lift (alloc capacity (header_str +:+ c)))
           "" in
       iadd capacity table_str (line_str +:+ nl +:+ header_str +:+ nl)) in
  let! table_str := iadd capacity table_str (line_str +:+ nl) in
  (* [self.columns] is always a list: the test [is not None] holds *)
  let! cols := get columns in
  let rows := zip_longest (col_items <$> cols) (PyStr "") in
  let! table_str :=
    for_in rows
      (fun table_str row =>
         let! table_str :=
           for_in row
             (fun table_str row_item =>
                let! c := cell capacity cw row_item in
                lift (alloc capacity (table_str +:+ c)))
             table_str in
         lift (alloc capacity (table_str +:+ nl)))
      table_str in
  iadd capacity table_str (line_str +:+ nl).

(** ** [__len__] and [__eq__] *)

Definition __len__ (self : SimpleTable) : Z :=
  let max_len :=
    fold_left
      (fun max_len column =>
         if Z.of_nat (length (col_items column)) >? max_len
         then Z.of_nat (length (col_items column)) else max_len)
      (columns self) 0 in
  if is_none (header self) then max_len else max_len + 1.

(** The last conjunct compares [self.columnwidth] with itself, as the source
    does. *)
Definition __eq__ (self y : SimpleTable) : bool :=
  columns_eqb (columns self) (columns y)
  && value_eqb (header self) (header y)
  && value_eqb (title self) (title y)
  && value_eqb (columnwidth self) (columnwidth self).

(** ** [__parse_keyword_arguments] and [set] *)

(** The keyword arguments, in the order they were written.  Python rejects a
    repeated keyword, so the names of a real call are pairwise different and
    [kwargs.get(name)] is the value written next to [name]. *)
Definition kwargs := list (string * value).

Definition kwargs_get (kw : kwargs) (name : string) : value :=
  match list_find (fun p => p.1 = name) kw with
  | Some (_, (_, v)) => v
  | None => Atom PyNone
  end.

(** The body of the loop: the [match arg_name] statement.  Every branch
    assigns the attribute first and checks its type afterwards. *)
Definition parse_keyword_argument (kw : kwargs) (arg_name : string) : M unit :=
  if bool_decide (arg_name = "title") then
    modify (set_title (kwargs_get kw "title")) ;;
    let! t := get title in
    if negb (isinstance_str t)
    then raise (Exn TypeError (Some "title must be of type string"))
    else ret tt
  else if bool_decide (arg_name = "header") then
    modify (set_header (kwargs_get kw "header")) ;;
    let! h := get header in
    if negb (isinstance_seq h)
    then raise (Exn TypeError (Some "header must be of type tuple, list or set"))
    else ret tt
  else if bool_decide (arg_name = "columnwidth") then
    modify (set_columnwidth (kwargs_get kw "columnwidth")) ;;
    let! w := get columnwidth in
    if negb (isinstance_int w)
    then raise (Exn TypeError (Some "columnwidth must be of type int"))
    else ret tt
  else ret tt.

Definition __parse_keyword_arguments (kw : kwargs) : M unit :=
  for_each (kw.*1) (parse_keyword_argument kw).

Definition set (kw : kwargs) : M unit := __parse_keyword_arguments kw.

(** ** [__init__] *)

Definition fresh : SimpleTable :=
  mkSimpleTable (Atom PyNone) (Atom PyNone) [] (Atom PyNone) (Atom PyNone).

Definition append_column (c : column) : M unit :=
  modify (fun self => set_columns (columns self ++ [c]) self).

Definition __init__ (cols : list value) (kw : kwargs) : M unit :=
  modify (fun _ => fresh) ;;
  for_each cols
    (fun column =>
       if isinstance_seq column then
         let! xs := lift (py_iter column) in append_column (Column ListK xs)
       else
         match py_iter column with
         | Raised _ => raise (Exn TypeError (Some "column must be iterable"))
         | Return xs => append_column (Column ListK xs)
         end) ;;
  __parse_keyword_arguments kw ;;
  let! w := get columnwidth in
  if is_none w then __automatic_columnwidth else ret tt.

(** [SimpleTable( *cols, **kw)]: the new instance, or the exception. *)
Definition new (cols : list value) (kw : kwargs) : outcome SimpleTable :=
  match __init__ cols kw fresh with
  | (Return _, self) => Return self
  | (Raised e, _) => Raised e
  end.

(** ** [transpose] *)

(** [c.insert(0, x)]: a tuple has no method [insert]. *)
Definition insert_front (x : item) (c : column) : outcome column :=
  match col_kind c with
  | ListK => Return (Column ListK (x :: col_items c))
  | TupleK => Raised (Exn AttributeError None)
  end.

(** [list(zip_longest( *self.columns, fillvalue=""))]: a list of tuples. *)
Definition zipped (cols : list column) : list column :=
  Column TupleK <$> zip_longest (col_items <$> cols) (PyStr "").

(** [c[0]] *)
Definition first_item (c : column) : outcome item :=
  match col_items c with
  | x :: _ => Return x
  | [] => Raised (Exn IndexError None)
  end.

(** [self.header.append(x)] *)
Definition header_append (x : item) : M unit :=
  let! h := get header in
  match h with
  | Seq ListK xs => modify (set_header (Seq ListK (xs ++ [x])))
  | _ => raise (Exn AttributeError None)
  end.

Definition transpose : M unit :=
  let! h := get header in
  if is_none h then
    let! cols := get columns in modify (set_columns (zipped cols))
  else
    let! items := lift (py_iter h) in
    for_each (enumerate items)
      (fun '(index, item) =>
         let! cols := get columns in
         if bool_decide (index < length cols)%nat then
           match cols !! index with
           | Some c =>
               let! c' := lift (insert_front item c) in
               modify (set_columns (<[index := c']> cols))
           | None => raise (Exn IndexError None)
           end
         else append_column (Column ListK [item])) ;;
    let! cols := get columns in
    modify (set_columns (zipped cols)) ;;
    modify (set_header (Seq ListK [])) ;;
    let! cols := get columns in
    for_each cols
      (fun column => let! x := lift (first_item column) in header_append x) ;;
    let! cols := get columns in
    for_each (enumerate cols)
      (fun '(index, column) =>
         modify (fun self =>
                   set_columns
                     (<[index := Column ListK (drop 1 (col_items column))]>
                        (columns self)) self)).

(** ** Vocabulary of the statements *)

(** What the type checks of [__parse_keyword_arguments] accept, and the
    initial [None]. *)
Definition valid_title (v : value) : bool := is_none v || isinstance_str v.
Definition valid_header (v : value) : bool := is_none v || isinstance_seq v.
Definition valid_columnwidth (v : value) : bool := is_none v || isinstance_int v.

(** The three options [__parse_keyword_arguments] recognises, the attribute
    each one is stored in, and the type check that follows the store. *)
Definition recognized (name : string) : Prop :=
  name = "title" \/ name = "header" \/ name = "columnwidth".

Definition field (name : string) (self : SimpleTable) : value :=
  if bool_decide (name = "title") then title self
  else if bool_decide (name = "header") then header self
  else if bool_decide (name = "columnwidth") then columnwidth self
  else Atom PyNone.

Definition type_ok (name : string) (v : value) : bool :=
  if bool_decide (name = "title") then isinstance_str v
  else if bool_decide (name = "header") then isinstance_seq v
  else if bool_decide (name = "columnwidth") then isinstance_int v
  else true.

(** The items of the header; none when there is no header. *)
Definition header_items (self : SimpleTable) : list item :=
  match header self with
  | Seq _ xs => xs
  | _ => []
  end.

(** The items of all columns, column after column. *)
Definition column_items (self : SimpleTable) : list item :=
  concat (col_items <$> columns self).

(** The greatest [len(str(x))] over [xs], 0 for no item. *)
Definition widest (xs : list item) : Z :=
  foldr (fun x w => Z.max (len (str x)) w) 0 xs.

Definition auto_width (self : SimpleTable) : Z :=
  Z.max (widest (header_items self)) (widest (column_items self)).

(** The integer an [int] or [bool] column width stands for. *)
Definition int_value (v : value) : Z :=
  match v with
  | Atom (PyInt n) => n
  | Atom (PyBool b) => int_of_bool b
  | _ => 0
  end.

(** The width in force: the explicit one, or the automatic one. *)
Definition resolved_width (self : SimpleTable) : Z :=
  if is_none (columnwidth self) then auto_width self
  else int_value (columnwidth self).

(** The store a recognised option performs, and the exception its type
    check raises. *)
Definition assign (kw : kwargs) (name : string) (self : SimpleTable) : SimpleTable :=
  if bool_decide (name = "title") then set_title (kwargs_get kw "title") self
  else if bool_decide (name = "header") then set_header (kwargs_get kw "header") self
  else if bool_decide (name = "columnwidth")
       then set_columnwidth (kwargs_get kw "columnwidth") self
  else self.

Definition type_error (name : string) : exn :=
  Exn TypeError
      (Some (if bool_decide (name = "title") then "title must be of type string"
             else if bool_decide (name = "header")
                  then "header must be of type tuple, list or set"
             else "columnwidth must be of type int")).

(** [iter(v)] succeeds. *)
Definition iterable (v : value) : bool :=
  match py_iter v with Return _ => true | Raised _ => false end.

(** The instance after [__automatic_columnwidth] has run on it. *)
Definition refresh (self : SimpleTable) : SimpleTable :=
  set_auto_columnwidth (Atom (PyInt (auto_width self))) self.

Definition sum_Z (ns : list Z) : Z := foldr Z.add 0 ns.

(** The three widths [_get_table_width] compares, in the words of the
    description: the title with its two border positions; the header, where
    each item counts with its own length when no width is set and with the
    set width otherwise; the columns at the width in force. *)
Definition title_width (self : SimpleTable) : Z :=
  match title self with
  | Atom (PyStr s) => len s + 2
  | _ => 0
  end.

Definition header_width (self : SimpleTable) : Z :=
  sum_Z ((fun x => (if is_none (columnwidth self) then len (str x)
                    else int_value (columnwidth self)) + 1)
           <$> header_items self).

Definition columns_width (self : SimpleTable) : Z :=
  match columns self with
  | [] => 0
  | _ :: _ => (resolved_width self + 1) * Z.of_nat (length (columns self))
  end.

Definition table_width (self : SimpleTable) : Z :=
  Z.max (Z.max (title_width self) (header_width self)) (columns_width self).

(** The instance after [_get_table_width]: the automatic width is stored
    when there are columns and no width is set. *)
Definition after_width (self : SimpleTable) : SimpleTable :=
  match columns self with
  | [] => self
  | _ :: _ => if is_none (columnwidth self) then refresh self else self
  end.

(** ** The rendered text, piece by piece *)

Fixpoint join (ss : list string) : string :=
  match ss with
  | [] => ""
  | s :: ss' => s +:+ join ss'
  end.

(** An item right-justified to the width [w]: padded on the left when it is
    shorter, whole when it is longer. *)
Definition justified (w : Z) (x : item) : string :=
  spaces (w - len (str x)) +:+ str x.

(** A cell: the justified item and the vertical border. *)
Definition cell_text (w : Z) (x : item) : string := justified w x +:+ ver_char.

Definition cells (w : Z) (xs : list item) : string := join (cell_text w <$> xs).

(** The horizontal rule, as a line. *)
Definition rule (self : SimpleTable) : string :=
  replicate_char hor_char (table_width self) +:+ nl.

Definition centred (s : string) (w : Z) : string :=
  let pad := Z.max 0 (w - len s) in
  spaces (pad / 2) +:+ s +:+ spaces (pad - pad / 2).

Definition title_block (self : SimpleTable) : string :=
  match title self with
  | Atom (PyStr s) =>
      rule self +:+ centred s (table_width self - 1) +:+ ver_char +:+ nl
  | _ => ""
  end.

Definition header_block (self : SimpleTable) (w : Z) : string :=
  if is_none (header self) then ""
  else rule self +:+ cells w (header_items self) +:+ nl.

(** The rows of the data region: row [i] takes item [i] of every column and
    the empty string where a column has no such item. *)
Definition data_rows (self : SimpleTable) : list (list item) :=
  zip_longest (col_items <$> columns self) (PyStr "").

Definition data_block (self : SimpleTable) (w : Z) : string :=
  join ((fun row => cells w row +:+ nl) <$> data_rows self).

Definition render (self : SimpleTable) (w : Z) : string :=
  title_block self +:+ header_block self w +:+ rule self
  +:+ data_block self w +:+ rule self.

(** The value spliced into the format specification of the cells, and
    whether the formatter rejects it. *)
Definition width_in_force (self : SimpleTable) : value :=
  if is_none (columnwidth self) then Atom (PyInt (auto_width self))
  else columnwidth self.

Definition rejected_width (v : value) : bool :=
  match v with
  | Atom (PyInt n) => n <? 0
  | _ => true
  end.

Definition is_nil {A} (xs : list A) : bool :=
  match xs with [] => true | _ :: _ => false end.

(** There is at least one cell to format. *)
Definition has_cell (self : SimpleTable) : bool :=
  negb (is_nil (header_items self))
  || existsb (fun row => negb (is_nil row)) (data_rows self).

(** The instance after [__str__]. *)
Definition after_str (self : SimpleTable) : SimpleTable :=
  if is_none (columnwidth self) then refresh self else self.

(** The columns of the worked example. *)
Definition example_columns : list value :=
  [Seq ListK [PyStr "a"; PyStr "bb"]; Seq ListK [PyStr "ccc"]].

(** The columns after the header items have been put in front of them:
    header item [i] goes to the front of column [i], or makes a new column of
    its own when there is no column [i]. *)
Fixpoint enlarge (hs : list item) (cols : list (list item)) : list (list item) :=
  match hs, cols with
  | [], _ => cols
  | h :: hs', [] => [h] :: enlarge hs' []
  | h :: hs', c :: cols' => (h :: c) :: enlarge hs' cols'
  end.

(** The transposed groups of a table with a header. *)
Definition groups (self : SimpleTable) : list (list item) :=
  zip_longest (enlarge (header_items self) (col_items <$> columns self))
              (PyStr "").

(** The instance after [transpose] when there is a header. *)
Definition transposed (self : SimpleTable) : SimpleTable :=
  set_columns ((fun g => Column ListK (drop 1 g)) <$> groups self)
    (set_header (Seq ListK ((fun g => nth 0 g (PyStr "")) <$> groups self)) self).

(** ** Instances the methods can produce *)

(** The attributes set by keyword have passed their type checks (or are
    still [None]). *)
Definition well_typed (self : SimpleTable) : Prop :=
  valid_title (title self) = true
  /\ valid_header (header self) = true
  /\ valid_columnwidth (columnwidth self) = true.

(** An instance obtained from a constructor call that returned, through
    calls of [set] that returned and calls of [transpose] and [__str__]. *)
Inductive reachable : SimpleTable -> Prop :=
| reach_new cols kw self :
    new cols kw = Return self -> reachable self
| reach_set kw self self' :
    reachable self -> set kw self = (Return tt, self') -> reachable self'
| reach_transpose self o self' :
    reachable self -> transpose self = (o, self') -> reachable self'
| reach_str capacity self o self' :
    reachable self -> __str__ capacity self = (o, self') -> reachable self'.

(** The method body [m] keeps the property [P] of the instance, whether it
    returns or raises. *)
Definition preserves {A} (P : SimpleTable -> Prop) (m : M A) : Prop :=
  forall s o s', P s -> m s = (o, s') -> P s'.

(** ** Room for the rendered text *)

(** The interpreter can build the string [s]. *)
Definition fits (capacity : Z) (s : string) : bool := room capacity (len s).

(** What a computation that builds the text [t] may end in: it returns [t],
    which then fits and had no cell rejected by the formatter; or the
    formatter raises [ValueError] on a rejected cell ([rejected] says there
    is one); or the text does not fit and the interpreter raises
    [OverflowError] or [MemoryError]. *)
Definition builds (capacity : Z) (rejected : bool) (t : string)
    (o : outcome string) : Prop :=
  match o with
  | Return s => s = t /\ fits capacity t = true /\ rejected = false
  | Raised e =>
      (rejected = true /\ e = Exn ValueError None)
      \/ (fits capacity t = false
          /\ (e = Exn OverflowError None \/ e = Exn MemoryError None))
  end.

(** The same for a method body that leaves the instance alone. *)
Definition mbuilds (capacity : Z) (rejected : bool) (t : string)
    (m : M string) (self : SimpleTable) : Prop :=
  exists o, m self = (o, self) /\ builds capacity rejected t o.

(** ** Vocabulary of the further properties *)


(** A column filled up with empty strings to [n] items. *)
Definition pad_to (n : nat) (c : list item) : list item :=
  c ++ replicate (n - length c) (PyStr "").

(** All columns are lists, or all are tuples. *)
Definition uniform (self : SimpleTable) : Prop :=
  Forall (fun c => col_kind c = ListK) (columns self)
  \/ Forall (fun c => col_kind c = TupleK) (columns self).


(** * Properties *)

(** ** Strings *)

Lemma string_app_cons c (s t : string) : String c s +:+ t = String c (s +:+ t).
Proof. reflexivity. Qed.

Lemma string_app_nil_r (s : string) : s +:+ "" = s.
Proof. induction s as [|c s IH]; [done|]. by rewrite string_app_cons, IH. Qed.

Lemma string_app_assoc (s1 s2 s3 : string) :
  (s1 +:+ s2) +:+ s3 = s1 +:+ (s2 +:+ s3).
Proof. induction s1 as [|c s1 IH]; [done|]. by rewrite !string_app_cons, IH. Qed.

Lemma string_length_app (s1 s2 : string) :
  String.length (s1 +:+ s2) = (String.length s1 + String.length s2)%nat.
Proof.
  induction s1 as [|c s1 IH]; [done|]. rewrite string_app_cons. cbn.
  by rewrite IH.
Qed.

Lemma length_replicate_char c n : String.length (replicate_char c n) = Z.to_nat n.
Proof.
  unfold replicate_char. induction (Z.to_nat n) as [|k IH]; [done|].
  cbn. by rewrite IH.
Qed.

Lemma replicate_char_nonpos c n : n <= 0 -> replicate_char c n = "".
Proof.
  intros Hn. unfold replicate_char. by replace (Z.to_nat n) with 0%nat by lia.
Qed.

(** ** [__len__] *)

Lemma max_len_loop (cs : list column) (m : Z) :
  0 <= m ->
  fold_left
    (fun max_len column =>
       if Z.of_nat (length (col_items column)) >? max_len
       then Z.of_nat (length (col_items column)) else max_len) cs m
  = Z.max m (Z.of_nat (longest (col_items <$> cs))).
Proof.
  unfold longest. revert m. induction cs as [|c cs IH]; intros m Hm; cbn.
  - lia.
  - rewrite IH.
    2: destruct (Z.gtb_spec (Z.of_nat (length (col_items c))) m); lia.
    destruct (Z.gtb_spec (Z.of_nat (length (col_items c))) m); lia.
Qed.

(** C6: the length query is the length of the longest column (0 when there
    is no column), plus 1 exactly when a header is present. *)
Theorem len_longest_column_plus_header (self : SimpleTable) :
  __len__ self
  = Z.of_nat (longest (col_items <$> columns self))
    + (if is_none (header self) then 0 else 1).
Proof.
  unfold __len__. rewrite max_len_loop by done.
  destruct (is_none (header self)); lia.
Qed.

(** ** [__eq__] *)

Lemma item_eqb_refl x : item_eqb x x = true.
Proof. destruct x; cbn; try done; by apply bool_decide_eq_true. Qed.

Lemma items_eqb_refl xs : items_eqb xs xs = true.
Proof. induction xs as [|x xs IH]; cbn; [done|]. by rewrite item_eqb_refl. Qed.

Lemma value_eqb_refl v : value_eqb v v = true.
Proof.
  destruct v; cbn; [apply item_eqb_refl|].
  rewrite items_eqb_refl. by rewrite bool_decide_eq_true_2.
Qed.

Lemma columns_eqb_refl cs : columns_eqb cs cs = true.
Proof.
  induction cs as [|c cs IH]; cbn; [done|]. rewrite IH.
  unfold column_eqb. rewrite items_eqb_refl. by rewrite bool_decide_eq_true_2.
Qed.

(** C7: [==] holds exactly when columns, header and title are equal (in the
    sense of Python's [==]); the column widths of the two instances have no
    influence on the answer, so an instance equals any instance that differs
    from it in the width alone. *)
Theorem eq_ignores_columnwidth (self y : SimpleTable) :
  (__eq__ self y = true <->
     columns_eqb (columns self) (columns y) = true
     /\ value_eqb (header self) (header y) = true
     /\ value_eqb (title self) (title y) = true)
  /\ (forall w w' a a',
        __eq__ (set_auto_columnwidth a (set_columnwidth w self))
               (set_auto_columnwidth a' (set_columnwidth w' y))
        = __eq__ self y)
  /\ (forall w a,
        __eq__ self (set_auto_columnwidth a (set_columnwidth w self)) = true).
Proof.
  unfold __eq__. split; [|split].
  - rewrite value_eqb_refl, andb_true_r, !andb_true_iff. tauto.
  - intros w w' a a'. cbn. by rewrite !value_eqb_refl.
  - intros w a. cbn.
    by rewrite columns_eqb_refl, !value_eqb_refl.
Qed.

(** ** Keyword arguments: [__parse_keyword_arguments], [set], [__init__] *)

Lemma parse_keyword_argument_run kw name self :
  parse_keyword_argument kw name self
  = (if type_ok name (kwargs_get kw name) then Return tt
     else Raised (type_error name),
     assign kw name self).
Proof.
  unfold parse_keyword_argument, type_ok, type_error, assign.
  repeat case_bool_decide; subst; try done;
    unfold bind, modify, get, raise, ret; cbn;
    match goal with |- context [negb ?b] => by destruct b end.
Qed.

Lemma parse_all_ok kw keys self :
  Forall (fun k => type_ok k (kwargs_get kw k) = true) keys ->
  for_each keys (parse_keyword_argument kw) self
  = (Return tt, foldl (fun s k => assign kw k s) self keys).
Proof.
  intros Hok. revert self. induction Hok as [|k keys Hk _ IH]; intros self.
  - done.
  - unfold for_each in *. cbn. unfold bind at 1.
    rewrite parse_keyword_argument_run, Hk. apply IH.
Qed.

Lemma parse_stops kw pre name post self :
  Forall (fun k => type_ok k (kwargs_get kw k) = true) pre ->
  type_ok name (kwargs_get kw name) = false ->
  for_each (pre ++ name :: post) (parse_keyword_argument kw) self
  = (Raised (type_error name),
     assign kw name (foldl (fun s k => assign kw k s) self pre)).
Proof.
  intros Hok Hbad. revert self. induction Hok as [|k keys Hk _ IH]; intros self.
  - unfold for_each. cbn. unfold bind.
    by rewrite parse_keyword_argument_run, Hbad.
  - unfold for_each in *. cbn. unfold bind at 1.
    rewrite parse_keyword_argument_run, Hk. apply IH.
Qed.

(** The first option that fails its type check. *)
Lemma first_failure kw (keys : list string) name :
  name ∈ keys -> type_ok name (kwargs_get kw name) = false ->
  exists pre bad post,
    keys = pre ++ bad :: post
    /\ Forall (fun k => type_ok k (kwargs_get kw k) = true) pre
    /\ type_ok bad (kwargs_get kw bad) = false.
Proof.
  intros Hin Hbad. induction keys as [|k keys IH]; [by apply elem_of_nil in Hin|].
  destruct (type_ok k (kwargs_get kw k)) eqn:Hk.
  - apply elem_of_cons in Hin as [-> | Hin]; [congruence|].
    destruct (IH Hin) as (pre & bad & post & -> & Hpre & Hb).
    exists (k :: pre), bad, post. split; [done|]. split; [|done].
    by constructor.
  - by exists [], k, keys.
Qed.

Lemma field_assign kw name k self :
  recognized k ->
  field k (assign kw name self)
  = if bool_decide (k = name) then kwargs_get kw k else field k self.
Proof.
  intros [-> | [-> | ->]]; unfold field, assign;
    repeat case_bool_decide; subst; done.
Qed.

Lemma field_assign_all kw keys k self :
  recognized k ->
  field k (foldl (fun s name => assign kw name s) self keys)
  = if bool_decide (k ∈ keys) then kwargs_get kw k else field k self.
Proof.
  intros Hk. revert self. induction keys as [|name keys IH]; intros self.
  - cbn. rewrite bool_decide_eq_false_2; [done|]. apply not_elem_of_nil.
  - cbn. rewrite IH. case_bool_decide as Hin.
    + rewrite bool_decide_eq_true_2; [done|]. by apply elem_of_cons; right.
    + rewrite field_assign by done. case_bool_decide as Heq.
      * subst. rewrite bool_decide_eq_true_2; [done|]. by apply elem_of_cons; left.
      * rewrite bool_decide_eq_false_2; [done|].
        intros [?|?]%elem_of_cons; done.
Qed.

(** C10: [set] is not atomic.  When the options before [name] pass their type
    checks and [name] is a recognised option whose value fails its check,
    [set] raises the [TypeError] of [name]; in the instance it leaves behind,
    the attribute of [name] already holds the rejected value, the recognised
    options before it hold their new values, and the options after it were
    not applied. *)
Theorem set_not_atomic (kw : kwargs) (pre post : list string) (name : string)
    (self : SimpleTable) :
  kw.*1 = pre ++ name :: post ->
  Forall (fun k => type_ok k (kwargs_get kw k) = true) pre ->
  recognized name ->
  type_ok name (kwargs_get kw name) = false ->
  exists msg self',
    set kw self = (Raised (Exn TypeError (Some msg)), self')
    /\ field name self' = kwargs_get kw name
    /\ (forall k, recognized k -> k ∈ pre -> field k self' = kwargs_get kw k)
    /\ (forall k, recognized k -> k ∉ pre -> k <> name ->
                  field k self' = field k self).
Proof.
  intros Hkeys Hpre Hname Hbad.
  eexists _, _. split; [|split; [|split]].
  - unfold set, __parse_keyword_arguments. rewrite Hkeys.
    rewrite (parse_stops _ _ _ _ _ Hpre Hbad). reflexivity.
  - rewrite field_assign by done. by rewrite bool_decide_eq_true_2.
  - intros k Hk Hin. rewrite field_assign by done.
    case_bool_decide; [done|].
    rewrite field_assign_all by done. by rewrite bool_decide_eq_true_2.
  - intros k Hk Hnin Hne. rewrite field_assign by done.
    rewrite bool_decide_eq_false_2 by done.
    rewrite field_assign_all by done. by rewrite bool_decide_eq_false_2.
Qed.

(** The example of the claim: a valid column width followed by a title that
    is not a string. *)
Lemma set_not_atomic_witness :
  exists msg self',
    set [("columnwidth", Atom (PyInt 5)); ("title", Atom (PyInt 3));
         ("header", Seq ListK [])] fresh
    = (Raised (Exn TypeError (Some msg)), self')
    /\ field "title" self' = Atom (PyInt 3)
    /\ (forall k, recognized k -> k ∈ ["columnwidth"] ->
                  field k self'
                  = kwargs_get [("columnwidth", Atom (PyInt 5));
                                ("title", Atom (PyInt 3));
                                ("header", Seq ListK [])] k)
    /\ (forall k, recognized k -> k ∉ ["columnwidth"] -> k <> "title" ->
                  field k self' = field k fresh).
Proof.
  apply (set_not_atomic
           [("columnwidth", Atom (PyInt 5)); ("title", Atom (PyInt 3));
            ("header", Seq ListK [])]
           ["columnwidth"] ["header"] "title" fresh).
  - reflexivity.
  - repeat constructor.
  - left. reflexivity.
  - reflexivity.
Defined.

(** The loop of [__init__] over the positional arguments. *)
Lemma init_columns_run (cols : list value) self :
  exists self',
    for_each cols
      (fun column =>
         if isinstance_seq column then
           let! xs := lift (py_iter column) in append_column (Column ListK xs)
         else
           match py_iter column with
           | Raised _ => raise (Exn TypeError (Some "column must be iterable"))
           | Return xs => append_column (Column ListK xs)
           end) self
    = (if forallb iterable cols then Return tt
       else Raised (Exn TypeError (Some "column must be iterable")), self').
Proof.
  revert self. induction cols as [|c cols IH]; intros self.
  - by eexists.
  - unfold for_each in *. cbn. unfold bind at 1.
    destruct c as [[| | |s]|k xs]; cbn; try by eexists.
    + apply IH.
    + apply IH.
Qed.

(** C8: a [columnwidth] option that is not an integer makes the constructor
    raise [TypeError], so no instance exists that could be rendered; when the
    columns are iterable and the other options are well typed, the error is
    the one about [columnwidth]. *)
Theorem non_int_columnwidth_rejected (cols : list value) (kw : kwargs) :
  "columnwidth" ∈ kw.*1 ->
  isinstance_int (kwargs_get kw "columnwidth") = false ->
  (exists msg, new cols kw = Raised (Exn TypeError (Some msg)))
  /\ (forallb iterable cols = true ->
      Forall (fun k => k <> "columnwidth" -> type_ok k (kwargs_get kw k) = true)
             (kw.*1) ->
      new cols kw
      = Raised (Exn TypeError (Some "columnwidth must be of type int"))).
Proof.
  intros Hin Hbad.
  destruct (first_failure kw (kw.*1) "columnwidth" Hin Hbad)
    as (pre & bad & post & Hkeys & Hpre & Hb).
  assert (exists self',
            __init__ cols kw fresh
            = (if forallb iterable cols then Raised (type_error bad)
               else Raised (Exn TypeError (Some "column must be iterable")),
               self')) as [self' Hrun].
  { unfold __init__. unfold bind at 1. unfold modify at 1. unfold bind at 1.
    destruct (init_columns_run cols fresh) as [self' ->].
    destruct (forallb iterable cols); [|by eexists].
    unfold bind at 1. unfold __parse_keyword_arguments.
    rewrite Hkeys, (parse_stops _ _ _ _ _ Hpre Hb). by eexists. }
  unfold new. rewrite Hrun. split.
  - destruct (forallb iterable cols); by eexists.
  - intros -> Hothers.
    assert (bad = "columnwidth") as ->; [|done].
    destruct (decide (bad = "columnwidth")) as [|Hne]; [done|].
    rewrite Hkeys in Hothers.
    apply Forall_app in Hothers as [_ Hothers].
    apply Forall_cons in Hothers as [Hothers _].
    rewrite (Hothers Hne) in Hb. done.
Qed.

(** The example of the claim: [columnwidth="wide"]. *)
Lemma non_int_columnwidth_rejected_witness :
  (exists msg,
     new [Seq ListK [PyStr "a"]] [("columnwidth", Atom (PyStr "wide"))]
     = Raised (Exn TypeError (Some msg)))
  /\ (forallb iterable [Seq ListK [PyStr "a"]] = true ->
      Forall (fun k => k <> "columnwidth" ->
                       type_ok k (kwargs_get [("columnwidth", Atom (PyStr "wide"))] k)
                       = true)
             ([("columnwidth", Atom (PyStr "wide"))].*1) ->
      new [Seq ListK [PyStr "a"]] [("columnwidth", Atom (PyStr "wide"))]
      = Raised (Exn TypeError (Some "columnwidth must be of type int"))).
Proof.
  apply (non_int_columnwidth_rejected
           [Seq ListK [PyStr "a"]] [("columnwidth", Atom (PyStr "wide"))]).
  - apply elem_of_cons. by left.
  - reflexivity.
Defined.

(** ** Width computation: [__automatic_columnwidth], [_get_table_width] *)

Lemma widest_cons x xs : widest (x :: xs) = Z.max (len (str x)) (widest xs).
Proof. reflexivity. Qed.

Lemma widest_nonneg xs : 0 <= widest xs.
Proof. induction xs; [done|]. rewrite widest_cons. lia. Qed.

Lemma widest_app xs ys : widest (xs ++ ys) = Z.max (widest xs) (widest ys).
Proof.
  induction xs as [|x xs IH].
  - pose proof (widest_nonneg ys). change (widest []) with 0. cbn [app]. lia.
  - cbn [app]. rewrite !widest_cons, IH. lia.
Qed.

Lemma widest_of_spec xs w : 0 <= w -> widest_of xs w = Z.max w (widest xs).
Proof.
  unfold widest_of. revert w. induction xs as [|x xs IH]; intros w Hw.
  - change (widest []) with 0. cbn. lia.
  - cbn [fold_left]. rewrite IH, widest_cons;
      destruct (Z.gtb_spec (len (str x)) w); lia.
Qed.

Lemma widest_columns_loop (cs : list column) w :
  0 <= w ->
  fold_left (fun w col => widest_of (col_items col) w) cs w
  = Z.max w (widest (concat (col_items <$> cs))).
Proof.
  revert w. induction cs as [|c cs IH]; intros w Hw.
  - change (widest _) with 0. cbn. lia.
  - cbn [fold_left fmap list_fmap concat].
    pose proof (widest_nonneg (col_items c)).
    rewrite IH, widest_of_spec, widest_app by (rewrite ?widest_of_spec; lia).
    lia.
Qed.

Lemma valid_header_iter self :
  valid_header (header self) = true ->
  is_none (header self) = false ->
  py_iter (header self) = Return (header_items self).
Proof.
  unfold header_items. by destruct (header self) as [[]|].
Qed.

Lemma header_items_none self :
  is_none (header self) = true -> header_items self = [].
Proof. unfold header_items. by destruct (header self) as [[]|]. Qed.

Lemma automatic_columnwidth_run self :
  valid_header (header self) = true ->
  __automatic_columnwidth self = (Return tt, refresh self).
Proof.
  intros Hh. unfold __automatic_columnwidth, refresh, auto_width, column_items.
  unfold bind at 1. unfold get at 1.
  destruct (is_none (header self)) eqn:Hnone.
  - unfold bind, ret, get, modify.
    rewrite widest_columns_loop, header_items_none by done.
    change (widest []) with 0. done.
  - unfold bind, ret, get, modify, lift.
    rewrite valid_header_iter by done.
    pose proof (widest_nonneg (header_items self)).
    rewrite widest_of_spec, widest_columns_loop by lia.
    do 4 f_equal. lia.
Qed.

Lemma valid_columnwidth_succ v :
  valid_columnwidth v = true -> is_none v = false ->
  py_succ v = Return (int_value v + 1).
Proof. by destruct v as [[]|]. Qed.

Lemma header_width_loop self items acc :
  valid_columnwidth (columnwidth self) = true ->
  for_in items
    (fun table_width_header header_item =>
       let! cw := get columnwidth in
       if is_none cw
       then ret (table_width_header + (len (str header_item) + 1))
       else let! n := lift (py_succ cw) in ret (table_width_header + n))
    acc self
  = (Return
       (acc + sum_Z ((fun x => (if is_none (columnwidth self) then len (str x)
                                else int_value (columnwidth self)) + 1)
                       <$> items)),
     self).
Proof.
  intros Hw. revert acc. induction items as [|x items IH]; intros acc; cbn.
  - unfold ret. do 2 f_equal. lia.
  - unfold bind at 1. unfold bind at 1. unfold get at 1.
    destruct (is_none (columnwidth self)) eqn:Hnone.
    + unfold ret at 1. rewrite IH. do 2 f_equal. unfold sum_Z. lia.
    + unfold bind at 1, lift at 1.
      rewrite valid_columnwidth_succ by done.
      unfold ret at 1. rewrite IH. do 2 f_equal. unfold sum_Z. lia.
Qed.

Lemma valid_title_len self :
  valid_title (title self) = true ->
  is_none (title self) = false ->
  py_len (title self) = Return (title_width self - 2).
Proof.
  unfold title_width. destruct (title self) as [[]|]; try done.
  intros _ _. cbn. f_equal. lia.
Qed.

Lemma title_width_none self :
  is_none (title self) = true -> title_width self = 0.
Proof. unfold title_width. by destruct (title self) as [[]|]. Qed.

Lemma get_table_width_run self :
  valid_title (title self) = true ->
  valid_header (header self) = true ->
  valid_columnwidth (columnwidth self) = true ->
  _get_table_width self = (Return (table_width self), after_width self).
Proof.
  intros Ht Hh Hw. unfold _get_table_width.
  unfold bind at 1. unfold get at 1.
  assert (forall (k : Z -> M Z),
             ((let! table_width_title :=
                 (if is_none (title self) then ret 0
                  else let! n := lift (py_len (title self)) in ret (n + 2)) in
               k table_width_title) self)
             = k (title_width self) self) as ->.
  { intros k. destruct (is_none (title self)) eqn:Hnone.
    - by rewrite title_width_none.
    - unfold bind, lift, ret. rewrite valid_title_len by done.
      f_equal. lia. }
  unfold bind at 1. unfold get at 1.
  assert (forall (k : Z -> M Z),
             ((let! table_width_header :=
                 (if is_none (header self) then ret 0
                  else
                    let! items := lift (py_iter (header self)) in
                    for_in items
                      (fun table_width_header header_item =>
                         let! cw := get columnwidth in
                         if is_none cw
                         then ret (table_width_header + (len (str header_item) + 1))
                         else let! n := lift (py_succ cw) in
                              ret (table_width_header + n))
                      0) in
               k table_width_header) self)
             = k (header_width self) self) as ->.
  { intros k. unfold header_width. destruct (is_none (header self)) eqn:Hnone.
    - by rewrite header_items_none.
    - unfold bind at 1. unfold bind at 1. unfold lift at 1.
      rewrite valid_header_iter by done.
      by rewrite header_width_loop. }
  unfold bind at 1. unfold get at 1.
  unfold table_width, columns_width, after_width, resolved_width.
  destruct (columns self) as [|c cs] eqn:Hcols.
  - unfold bind, ret. do 2 f_equal.
    destruct (Z.gtb_spec (header_width self) 0);
      destruct (Z.gtb_spec (title_width self) (header_width self));
      destruct (Z.gtb_spec (title_width self) 0); lia.
  - unfold bind at 1. unfold bind at 1. unfold get at 1.
    destruct (is_none (columnwidth self)) eqn:Hnone.
    + unfold bind at 1. rewrite automatic_columnwidth_run by done.
      unfold bind, get, lift, ret. cbn [auto_columnwidth refresh set_auto_columnwidth py_succ].
      do 2 f_equal.
      set (h := header_width self). set (t := title_width self).
      set (c' := (auto_width self + 1) * Z.of_nat (length (c :: cs))).
      destruct (Z.gtb_spec h c'); destruct (Z.gtb_spec t h);
        destruct (Z.gtb_spec t c'); lia.
    + unfold bind, lift, ret. rewrite valid_columnwidth_succ by done.
      do 2 f_equal.
      set (h := header_width self). set (t := title_width self).
      set (c' := (int_value (columnwidth self) + 1) * Z.of_nat (length (c :: cs))).
      destruct (Z.gtb_spec h c'); destruct (Z.gtb_spec t h);
        destruct (Z.gtb_spec t c'); lia.
Qed.

(** C3: the table width is the greatest of the title width, the header width
    and the columns width; the header counts each item with its own length
    when no width is set, and with the set width otherwise. *)
Theorem table_width_is_max (self : SimpleTable) :
  valid_title (title self) = true ->
  valid_header (header self) = true ->
  valid_columnwidth (columnwidth self) = true ->
  (_get_table_width self).1
  = Return (Z.max (Z.max (title_width self) (header_width self))
                  (columns_width self))
  /\ (is_none (columnwidth self) = true ->
      header_width self
      = sum_Z ((fun x => len (str x) + 1) <$> header_items self)
      /\ resolved_width self = auto_width self)
  /\ (forall W, columnwidth self = Atom (PyInt W) ->
      header_width self
      = sum_Z ((fun _ => W + 1) <$> header_items self)
      /\ resolved_width self = W).
Proof.
  intros Ht Hh Hw. split; [|split].
  - by rewrite get_table_width_run.
  - intros Hnone. unfold header_width, resolved_width. by rewrite Hnone.
  - intros W HW. unfold header_width, resolved_width. by rewrite HW.
Qed.

Lemma table_width_is_max_witness :
  let self :=
    mkSimpleTable (Atom (PyStr "Hello")) (Seq ListK [PyStr "X"; PyStr "Y"])
                  [Column ListK [PyStr "a"; PyStr "bb"]; Column ListK [PyStr "ccc"]]
                  (Atom (PyInt 4)) (Atom PyNone) in
  (_get_table_width self).1
  = Return (Z.max (Z.max (title_width self) (header_width self))
                  (columns_width self))
  /\ (is_none (columnwidth self) = true ->
      header_width self
      = sum_Z ((fun x => len (str x) + 1) <$> header_items self)
      /\ resolved_width self = auto_width self)
  /\ (forall W, columnwidth self = Atom (PyInt W) ->
      header_width self
      = sum_Z ((fun _ => W + 1) <$> header_items self)
      /\ resolved_width self = W).
Proof.
  intros self. apply (table_width_is_max self); reflexivity.
Defined.

(** ** Rendering: [__str__] *)

Lemma join_app ss ts : join (ss ++ ts) = join ss +:+ join ts.
Proof.
  induction ss as [|s ss IH]; [done|].
  cbn [app join]. by rewrite IH, string_app_assoc.
Qed.

Lemma len_spaces n : len (spaces n) = Z.max 0 n.
Proof. unfold len, spaces. rewrite length_replicate_char. lia. Qed.

Lemma len_app s t : len (s +:+ t) = len s + len t.
Proof. unfold len. rewrite string_length_app. lia. Qed.

Lemma len_nonneg s : 0 <= len s.
Proof. unfold len. lia. Qed.

(** *** Room for strings *)

Lemma reserve_cases capacity n :
  (room capacity n = true /\ reserve capacity n = Return tt)
  \/ (room capacity n = false
      /\ (reserve capacity n = Raised (Exn OverflowError None)
          \/ reserve capacity n = Raised (Exn MemoryError None))).
Proof.
  unfold room, reserve.
  destruct (Z.leb_spec n 0); [by left|].
  destruct (Z.gtb_spec n sys_maxsize).
  - right. rewrite (proj2 (Z.leb_gt n sys_maxsize)) by lia. split; [done|by left].
  - rewrite (proj2 (Z.leb_le n sys_maxsize)) by lia.
    destruct (Z.gtb_spec n capacity).
    + right. rewrite (proj2 (Z.leb_gt n capacity)) by lia. split; [done|by right].
    + left. by rewrite (proj2 (Z.leb_le n capacity)) by lia.
Qed.

Lemma room_mono capacity n m :
  n <= m -> room capacity m = true -> room capacity n = true.
Proof.
  unfold room. intros Hnm.
  rewrite !orb_true_iff, !andb_true_iff, !Z.leb_le. lia.
Qed.

Lemma fits_mono capacity s t :
  len s <= len t -> fits capacity t = true -> fits capacity s = true.
Proof. apply room_mono. Qed.

Lemma fits_mono_false capacity s t :
  len s <= len t -> fits capacity s = false -> fits capacity t = false.
Proof.
  intros Hlen Hs. destruct (fits capacity t) eqn:Ht; [|done].
  by rewrite (fits_mono _ _ _ Hlen Ht) in Hs.
Qed.

Lemma fits_empty capacity : fits capacity "" = true.
Proof. reflexivity. Qed.

Lemma builds_alloc capacity s : builds capacity false s (alloc capacity s).
Proof.
  unfold alloc, fits.
  destruct (reserve_cases capacity (len s)) as [[Hroom ->] | [Hroom [-> | ->]]];
    cbn; auto 10.
Qed.

Lemma fits_replicate_char capacity c n :
  fits capacity (replicate_char c n) = room capacity n.
Proof.
  unfold fits, len. rewrite length_replicate_char. unfold room.
  destruct (Z.leb_spec n 0).
  - by replace (Z.to_nat n) with 0%nat by lia.
  - rewrite Z2Nat.id by lia. by rewrite (proj2 (Z.leb_gt n 0)) by lia.
Qed.

Lemma room_maxsize capacity n : room capacity n = true -> n <= 0 \/ n <= sys_maxsize.
Proof.
  unfold room. rewrite orb_true_iff, andb_true_iff, !Z.leb_le. lia.
Qed.

Lemma builds_repeat_char capacity c n :
  builds capacity false (replicate_char c n) (repeat_char capacity c n).
Proof.
  unfold repeat_char.
  destruct (reserve_cases capacity n) as [[Hroom ->] | [Hroom [-> | ->]]];
    cbn; rewrite fits_replicate_char; auto 10.
Qed.

(** The formatter takes every width from 0 to [sys.maxsize]. *)
Lemma builds_format_rjust capacity x w :
  0 <= w <= sys_maxsize ->
  builds capacity false (justified w x) (format_rjust capacity (str x) w).
Proof.
  intros Hw. unfold format_rjust, justified.
  rewrite (proj2 (Z.ltb_ge w 0)) by lia.
  destruct (Z.gtb_spec w sys_maxsize); [lia|apply builds_alloc].
Qed.

Lemma builds_format_center capacity s w :
  0 <= w <= sys_maxsize ->
  builds capacity false (centred s w) (format_center capacity s w).
Proof.
  intros Hw. unfold format_center, centred.
  rewrite (proj2 (Z.ltb_ge w 0)) by lia.
  destruct (Z.gtb_spec w sys_maxsize); [lia|apply builds_alloc].
Qed.

(** *** Method bodies that build a text *)

Lemma mbuilds_flag capacity r r' t m self :
  r = r' -> mbuilds capacity r' t m self -> mbuilds capacity r t m self.
Proof. by intros ->. Qed.

Lemma mbuilds_target capacity r t t' m self :
  t = t' -> mbuilds capacity r t' m self -> mbuilds capacity r t m self.
Proof. by intros ->. Qed.

Lemma mbuilds_lift capacity r t o self :
  builds capacity r t o -> mbuilds capacity r t (lift o) self.
Proof. intros Ho. by exists o. Qed.

Lemma mbuilds_ret capacity s self :
  fits capacity s = true -> mbuilds capacity false s (ret s) self.
Proof. intros Hs. by exists (Return s). Qed.

Lemma mbuilds_get {A} capacity r t (f : SimpleTable -> A) (k : A -> M string) self :
  mbuilds capacity r t (k (f self)) self ->
  mbuilds capacity r t (bind (get f) k) self.
Proof. done. Qed.

(** A step that builds [t1], followed by steps that build the longer
    [t2]. *)
Lemma mbuilds_bind capacity self r1 t1 (m1 : M string) r2 t2 (k : string -> M string) :
  mbuilds capacity r1 t1 m1 self ->
  len t1 <= len t2 ->
  (fits capacity t1 = true -> r1 = false -> mbuilds capacity r2 t2 (k t1) self) ->
  mbuilds capacity (r1 || r2) t2 (bind m1 k) self.
Proof.
  intros (o1 & Hrun & Ho1) Hlen Hk. unfold mbuilds, bind. rewrite Hrun.
  destruct o1 as [s|e]; cbn in Ho1.
  - destruct Ho1 as (-> & Hfits & ->). by apply Hk.
  - exists (Raised e). split; [done|]. cbn.
    destruct Ho1 as [[-> ->] | [Hfits He]]; [by left|right].
    split; [|done]. by apply (fits_mono_false _ t1).
Qed.

Lemma mbuilds_iadd capacity s piece self :
  mbuilds capacity false (s +:+ piece) (iadd capacity s piece) self.
Proof.
  unfold iadd. apply (mbuilds_flag _ _ (false || false)); [done|].
  apply (mbuilds_bind _ _ _ piece).
  - apply mbuilds_lift, builds_alloc.
  - rewrite len_app. pose proof (len_nonneg s). lia.
  - intros _ _. apply mbuilds_lift, builds_alloc.
Qed.

Lemma mbuilds_cell capacity v x self :
  (rejected_width v = false -> int_value v <= sys_maxsize) ->
  mbuilds capacity (rejected_width v) (cell_text (int_value v) x)
          (cell capacity v x) self.
Proof.
  intros Hmax.
  assert (mbuilds capacity true (cell_text (int_value v) x)
                  (raise (Exn ValueError None)) self) as Hraise.
  { exists (Raised (Exn ValueError None)). split; [done|]. by left. }
  destruct v as [[| |n|]|]; try exact Hraise.
  cbn [cell rejected_width int_value] in *.
  destruct (Z.ltb_spec n 0) as [Hn | Hn].
  - exists (Raised (Exn ValueError None)). split; [|by left].
    unfold bind, lift, format_rjust. by rewrite (proj2 (Z.ltb_lt n 0)).
  - apply (mbuilds_flag _ _ (false || false)); [done|].
    apply (mbuilds_bind _ _ _ (justified n x)).
    + apply mbuilds_lift, builds_format_rjust. split; [done|by apply Hmax].
    + unfold cell_text. rewrite len_app. pose proof (len_nonneg ver_char). lia.
    + intros _ _. apply mbuilds_lift, builds_alloc.
Qed.

Lemma cells_loop capacity v items :
  forall acc self,
    fits capacity acc = true ->
    (items <> [] -> rejected_width v = false -> int_value v <= sys_maxsize) ->
    mbuilds capacity (rejected_width v && negb (is_nil items))
            (acc +:+ cells (int_value v) items)
            (for_in items
               (fun header_str header_item =>
                  let! c := cell capacity v header_item in
                  lift (alloc capacity (header_str +:+ c)))
               acc) self.
Proof.
  induction items as [|x items IH]; intros acc self Hacc Hmax.
  - rewrite andb_false_r. apply (mbuilds_target _ _ _ acc).
    + unfold cells. cbn. apply string_app_nil_r.
    + by apply mbuilds_ret.
  - cbn [for_in].
    apply (mbuilds_flag _ _ ((rejected_width v || false)
                             || (rejected_width v && negb (is_nil items))));
      [by destruct (rejected_width v)|].
    apply (mbuilds_bind _ _ _ (acc +:+ cell_text (int_value v) x)).
    + apply (mbuilds_bind _ _ _ (cell_text (int_value v) x)).
      * by apply mbuilds_cell, Hmax.
      * rewrite len_app. pose proof (len_nonneg acc). lia.
      * intros _ _. apply mbuilds_lift, builds_alloc.
    + unfold cells. rewrite fmap_cons. cbn [join]. rewrite !len_app.
      pose proof (len_nonneg (join (cell_text (int_value v) <$> items))). lia.
    + intros Hfits _.
      eapply mbuilds_target; [|apply (IH _ self Hfits); intros _; by apply Hmax].
      unfold cells. rewrite fmap_cons. cbn [join]. by rewrite string_app_assoc.
Qed.

Lemma rows_loop capacity v rows :
  forall acc self,
    fits capacity acc = true ->
    (existsb (fun row => negb (is_nil row)) rows = true ->
     rejected_width v = false -> int_value v <= sys_maxsize) ->
    mbuilds capacity
            (rejected_width v && existsb (fun row => negb (is_nil row)) rows)
            (acc +:+ join ((fun row => cells (int_value v) row +:+ nl) <$> rows))
            (for_in rows
               (fun table_str row =>
                  let! table_str :=
                    for_in row
                      (fun table_str row_item =>
                         let! c := cell capacity v row_item in
                         lift (alloc capacity (table_str +:+ c)))
                      table_str in
                  lift (alloc capacity (table_str +:+ nl)))
               acc) self.
Proof.
  induction rows as [|row rows IH]; intros acc self Hacc Hmax.
  - rewrite andb_false_r. apply (mbuilds_target _ _ _ acc).
    + cbn. apply string_app_nil_r.
    + by apply mbuilds_ret.
  - cbn [for_in existsb].
    apply (mbuilds_flag _ _
             (((rejected_width v && negb (is_nil row)) || false)
              || (rejected_width v
                  && existsb (fun row => negb (is_nil row)) rows)));
      [by destruct (rejected_width v), (is_nil row)|].
    apply (mbuilds_bind _ _ _ ((acc +:+ cells (int_value v) row) +:+ nl)).
    + apply (mbuilds_bind _ _ _ (acc +:+ cells (int_value v) row)).
      * apply cells_loop; [done|]. intros Hrow. apply Hmax.
        cbn. by destruct row.
      * rewrite !len_app. pose proof (len_nonneg nl). lia.
      * intros _ _. apply mbuilds_lift, builds_alloc.
    + rewrite fmap_cons. cbn [join]. rewrite !len_app.
      pose proof (len_nonneg
                    (join ((fun row => cells (int_value v) row +:+ nl) <$> rows))).
      lia.
    + intros Hfits _.
      eapply mbuilds_target;
        [|apply (IH _ self Hfits); intros Hrows; apply Hmax; cbn;
          by rewrite Hrows, orb_true_r].
      rewrite fmap_cons. cbn [join]. by rewrite !string_app_assoc.
Qed.

Lemma table_width_refresh self : table_width (refresh self) = table_width self.
Proof. reflexivity. Qed.

Lemma after_width_after_str self : after_width (after_str self) = after_str self.
Proof.
  unfold after_width, after_str.
  destruct (is_none (columnwidth self)) eqn:Hnone.
  - cbn [columns refresh set_auto_columnwidth columnwidth]. rewrite Hnone.
    by destruct (columns self).
  - rewrite Hnone. by destruct (columns self).
Qed.

Lemma table_width_title self s :
  title self = Atom (PyStr s) -> len s + 2 <= table_width self.
Proof. intros Ht. unfold table_width, title_width. rewrite Ht. lia. Qed.

Lemma len_app_l s t : len s <= len (s +:+ t).
Proof. rewrite len_app. pose proof (len_nonneg t). lia. Qed.

Lemma len_app_r s t : len t <= len (s +:+ t).
Proof. rewrite len_app. pose proof (len_nonneg s). lia. Qed.

Lemma sum_Z_succ_widest (xs : list item) :
  xs <> [] -> widest xs < sum_Z ((fun x => len (str x) + 1) <$> xs).
Proof.
  induction xs as [|x xs IH]; [done|]. intros _.
  rewrite fmap_cons, widest_cons. cbn [sum_Z foldr].
  pose proof (len_nonneg (str x)).
  destruct xs as [|y ys]; [cbn; lia|].
  assert (widest (y :: ys) < sum_Z ((fun x => len (str x) + 1) <$> y :: ys))
    by (by apply IH).
  pose proof (widest_nonneg (y :: ys)). unfold sum_Z in *. lia.
Qed.

Lemma sum_Z_const (xs : list item) c :
  0 <= c -> xs <> [] -> c <= sum_Z ((fun _ => c) <$> xs).
Proof.
  intros Hc. induction xs as [|x xs IH]; [done|]. intros _.
  rewrite fmap_cons. cbn [sum_Z foldr].
  destruct xs as [|y ys]; [cbn; lia|].
  assert (c <= sum_Z ((fun _ => c) <$> y :: ys)) by (by apply IH).
  unfold sum_Z in *. lia.
Qed.

(** As soon as there is a cell, the table is wider than the width of the
    cells. *)
Lemma width_below_table_width self :
  header_items self <> [] \/ columns self <> [] ->
  0 <= resolved_width self ->
  resolved_width self < table_width self.
Proof.
  intros Hcell Hw. unfold table_width.
  destruct (columns self) as [|c cs] eqn:Hc.
  - destruct Hcell as [Hh|]; [|done].
    enough (resolved_width self < header_width self) by lia.
    unfold header_width, resolved_width in *.
    destruct (is_none (columnwidth self)); cbv beta iota in *.
    + unfold auto_width, column_items. rewrite Hc. cbn [fmap list_fmap concat widest foldr].
      pose proof (sum_Z_succ_widest _ Hh). pose proof (widest_nonneg (header_items self)).
      lia.
    + pose proof (sum_Z_const (header_items self)
                    (int_value (columnwidth self) + 1) ltac:(lia) Hh).
      lia.
  - enough (resolved_width self < columns_width self) by lia.
    unfold columns_width. rewrite Hc. cbn [length]. nia.
Qed.

(** The title block: nothing without a title, else the rule and the title
    line. *)
Lemma title_block_steps capacity self (line_str : string) (s1 : SimpleTable) :
  valid_title (title self) = true ->
  line_str = replicate_char hor_char (table_width self) ->
  fits capacity line_str = true ->
  mbuilds capacity false (title_block self)
    (if is_none (title self) then ret ""
     else
       let! table_str := iadd capacity "" (line_str +:+ nl) in
       let! centred :=
         lift (format_title capacity (title self) (table_width self - 1)) in
       iadd capacity table_str (centred +:+ ver_char +:+ nl))
    s1.
Proof.
  intros Ht -> HL. unfold title_block.
  destruct (title self) as [[| | |s]|] eqn:Hts; try done.
  { by apply mbuilds_ret. }
  rewrite fits_replicate_char in HL. apply room_maxsize in HL.
  pose proof (table_width_title self s Hts) as Hle.
  pose proof (len_nonneg s) as Hs.
  cbn [is_none format_title].
  apply (mbuilds_flag _ _ (false || (false || false))); [done|].
  apply (mbuilds_bind _ _ _ (rule self)).
  - apply mbuilds_iadd.
  - apply len_app_l.
  - intros _ _.
    apply (mbuilds_bind _ _ _ (centred s (table_width self - 1))).
    + apply mbuilds_lift, builds_format_center. lia.
    + etrans; [|apply len_app_r]. apply len_app_l.
    + intros _ _. apply mbuilds_iadd.
Qed.

(** The header block: nothing without a header, else the rule and the
    line of header cells. *)
Lemma header_block_steps capacity self v (line_str acc : string)
    (s1 : SimpleTable) :
  valid_header (header self) = true ->
  line_str = replicate_char hor_char (table_width self) ->
  fits capacity acc = true ->
  (header_items self <> [] -> rejected_width v = false ->
   int_value v <= sys_maxsize) ->
  mbuilds capacity (rejected_width v && negb (is_nil (header_items self)))
    (acc +:+ header_block self (int_value v))
    (if is_none (header self) then ret acc
     else
       let! items := lift (py_iter (header self)) in
       let! header_str :=
         for_in items
           (fun header_str header_item =>
              let! c := cell capacity v header_item in
              lift (alloc capacity (header_str +:+ c)))
           "" in
       iadd capacity acc (line_str +:+ nl +:+ header_str +:+ nl))
    s1.
Proof.
  intros Hh -> Hacc Hmax. unfold header_block.
  destruct (is_none (header self)) eqn:Hnone.
  - rewrite header_items_none, andb_false_r, string_app_nil_r by done.
    by apply mbuilds_ret.
  - unfold bind at 1. unfold lift at 1. rewrite valid_header_iter by done.
    apply (mbuilds_flag _ _ ((rejected_width v
                              && negb (is_nil (header_items self))) || false));
      [by rewrite orb_false_r|].
    apply (mbuilds_bind _ _ _ (cells (int_value v) (header_items self))).
    + by apply (cells_loop capacity v (header_items self) "" s1).
    + etrans; [|apply len_app_r]. unfold rule. rewrite !len_app.
      pose proof (len_nonneg (replicate_char hor_char (table_width self))).
      pose proof (len_nonneg nl). lia.
    + intros _ _. eapply mbuilds_target; [|apply mbuilds_iadd].
      unfold rule. by rewrite !string_app_assoc.
Qed.

(** What [__str__] ends in on an instance whose attributes have passed their
    type checks: the text [render], a [ValueError] of the formatter, or an
    exception for a text that does not fit. *)
Lemma str_outcome capacity self :
  valid_title (title self) = true ->
  valid_header (header self) = true ->
  valid_columnwidth (columnwidth self) = true ->
  exists o,
    __str__ capacity self = (o, after_str self)
    /\ builds capacity (rejected_width (width_in_force self) && has_cell self)
              (render self (resolved_width self)) o.
Proof.
  intros Ht Hh Hw. unfold __str__.
  unfold bind at 1. unfold get at 1.
  assert (forall (k : value -> M string),
             ((let! cw :=
                 (if is_none (columnwidth self)
                  then __automatic_columnwidth ;; get auto_columnwidth
                  else get columnwidth) in
               k cw) self)
             = k (width_in_force self) (after_str self)) as ->.
  { intros k. unfold width_in_force, after_str.
    destruct (is_none (columnwidth self)); [|done].
    unfold bind. by rewrite automatic_columnwidth_run. }
  assert (title (after_str self) = title self) as Ht'.
  { unfold after_str. by destruct (is_none (columnwidth self)). }
  assert (header (after_str self) = header self) as Hh'.
  { unfold after_str. by destruct (is_none (columnwidth self)). }
  assert (columns (after_str self) = columns self) as Hc'.
  { unfold after_str. by destruct (is_none (columnwidth self)). }
  assert (columnwidth (after_str self) = columnwidth self) as Hw'.
  { unfold after_str. by destruct (is_none (columnwidth self)). }
  assert (table_width (after_str self) = table_width self) as Htw.
  { unfold after_str. by destruct (is_none (columnwidth self)). }
  unfold bind at 1.
  rewrite get_table_width_run by (by rewrite ?Ht', ?Hh', ?Hw').
  rewrite after_width_after_str, Htw.
  set (s1 := after_str self) in *.
  set (v := width_in_force self).
  assert (resolved_width self = int_value v) as Hres.
  { unfold resolved_width, v, width_in_force.
    by destruct (is_none (columnwidth self)). }
  assert (0 <= table_width self ->
          header_items self <> [] \/ columns self <> [] ->
          rejected_width v = false -> int_value v < table_width self) as Hbelow.
  { intros _ Hcell Hrej. rewrite <-Hres. apply width_below_table_width; [done|].
    rewrite Hres. destruct v as [[| |n|]|]; try done. cbn in *. lia. }
  rewrite Hres.
  set (w := int_value v) in *.
  set (L := replicate_char hor_char (table_width self)).
  set (T1 := title_block self).
  set (T2 := T1 +:+ header_block self w).
  set (T3 := T2 +:+ rule self).
  set (T4 := T3 +:+ data_block self w).
  assert (render self w = T4 +:+ rule self) as ->.
  { unfold render, T4, T3, T2, T1. by rewrite !string_app_assoc. }
  match goal with
  | |- exists o, ?m ?s = (o, ?s) /\ builds ?c ?r ?t o =>
      change (mbuilds c r t m s)
  end.
  apply (mbuilds_flag _ _
           (false
            || (false
                || ((rejected_width v && negb (is_nil (header_items self)))
                    || (false
                        || ((rejected_width v
                             && existsb (fun row => negb (is_nil row))
                                        (data_rows self))
                            || false)))))).
  { unfold has_cell.
    by destruct (rejected_width v), (is_nil (header_items self)),
         (existsb (fun row => negb (is_nil row)) (data_rows self)). }
  apply (mbuilds_bind _ _ _ L).
  { apply mbuilds_lift, builds_repeat_char. }
  { etrans; [|apply len_app_r]. apply len_app_l. }
  intros HL _.
  assert (header_items self <> [] \/ columns self <> [] ->
          rejected_width v = false -> w <= sys_maxsize) as Hmax.
  { intros Hcell Hrej. unfold L in HL. rewrite fits_replicate_char in HL.
    apply room_maxsize in HL.
    assert (0 <= w) by (unfold w; destruct v as [[| |n|]|]; try done; cbn in *; lia).
    assert (w < table_width self); [|lia].
    apply Hbelow; [|done..]. unfold table_width, title_width.
    pose proof (len_nonneg ""). destruct (title self) as [[| | |s]|];
      pose proof (widest_nonneg []); try lia.
    pose proof (len_nonneg s). lia. }
  apply mbuilds_get. rewrite Ht'.
  apply (mbuilds_bind _ _ _ T1).
  { by apply title_block_steps. }
  { unfold T4, T3, T2. etrans; [|apply len_app_l]. etrans; [|apply len_app_l].
    etrans; [|apply len_app_l]. apply len_app_l. }
  intros HT1 _. apply mbuilds_get. rewrite Hh'.
  apply (mbuilds_bind _ _ _ T2).
  { apply header_block_steps; [done..|]. intros Hitems. apply Hmax. by left. }
  { unfold T4, T3. etrans; [|apply len_app_l]. etrans; [|apply len_app_l].
    apply len_app_l. }
  intros HT2 _.
  apply (mbuilds_bind _ _ _ T3).
  { apply mbuilds_iadd. }
  { unfold T4. etrans; [|apply len_app_l]. apply len_app_l. }
  intros HT3 _. apply mbuilds_get. rewrite Hc'.
  apply (mbuilds_bind _ _ _ T4).
  { unfold T4, data_block, data_rows. apply rows_loop; [done|].
    intros Hrows. apply Hmax. right. intros Hnil. by rewrite Hnil in Hrows. }
  { apply len_app_l. }
  intros HT4 _. apply mbuilds_iadd.
Qed.

(** A call that returns has returned [render]. *)
Lemma str_returns capacity self out :
  valid_title (title self) = true ->
  valid_header (header self) = true ->
  valid_columnwidth (columnwidth self) = true ->
  (__str__ capacity self).1 = Return out ->
  out = render self (resolved_width self)
  /\ fits capacity out = true
  /\ rejected_width (width_in_force self) && has_cell self = false.
Proof.
  intros Ht Hh Hw.
  destruct (str_outcome capacity self Ht Hh Hw) as (o & -> & Ho).
  cbn [fst]. intros ->. by destruct Ho as (-> & ? & ?).
Qed.


(** A text that fits and has no rejected cell is returned. *)
Lemma str_fits capacity self :
  valid_title (title self) = true ->
  valid_header (header self) = true ->
  valid_columnwidth (columnwidth self) = true ->
  rejected_width (width_in_force self) && has_cell self = false ->
  fits capacity (render self (resolved_width self)) = true ->
  __str__ capacity self
  = (Return (render self (resolved_width self)), after_str self).
Proof.
  intros Ht Hh Hw Hrej Hfits.
  destruct (str_outcome capacity self Ht Hh Hw) as (o & -> & Ho).
  destruct o as [s|e]; cbn in Ho.
  - by destruct Ho as (-> & _ & _).
  - rewrite Hrej, Hfits in Ho. by destruct Ho as [[? _] | [? _]].
Qed.


(** C1: with an explicit integer width [W], the rendered text is made of the
    title block, the header line, the rules and the data rows, where every
    header and data cell is the stringified item right-justified to [W]
    followed by the vertical border.  A justified item has exactly [W]
    characters when the item has at most [W], and is the whole item, not
    truncated, when the item is longer.  For [0 <= W] rendering returns this
    text when the interpreter has room for it; for any [W], a text that
    rendering returns is this text. *)
Theorem explicit_width_cells (self : SimpleTable) (W : Z) :
  valid_title (title self) = true ->
  valid_header (header self) = true ->
  columnwidth self = Atom (PyInt W) ->
  (0 <= W ->
   forall capacity, fits capacity (render self W) = true ->
                    (__str__ capacity self).1 = Return (render self W))
  /\ (forall capacity out,
        (__str__ capacity self).1 = Return out -> out = render self W)
  /\ render self W
     = title_block self
       +:+ (if is_none (header self) then ""
            else rule self
                 +:+ join ((fun x => justified W x +:+ ver_char)
                             <$> header_items self)
                 +:+ nl)
       +:+ rule self
       +:+ join ((fun row =>
                    join ((fun x => justified W x +:+ ver_char) <$> row) +:+ nl)
                   <$> data_rows self)
       +:+ rule self
  /\ (forall x, len (str x) <= W ->
                justified W x = spaces (W - len (str x)) +:+ str x
                /\ len (justified W x) = W)
  /\ (forall x, W < len (str x) -> justified W x = str x).
Proof.
  intros Ht Hh HW.
  assert (valid_columnwidth (columnwidth self) = true) as Hw by by rewrite HW.
  assert (width_in_force self = Atom (PyInt W)) as Hv.
  { unfold width_in_force. by rewrite HW. }
  assert (resolved_width self = W) as Hres.
  { unfold resolved_width. by rewrite HW. }
  split; [|split; [|split; [|split]]].
  - intros HW0 capacity Hfits. rewrite <-Hres in Hfits |- *.
    rewrite str_fits; [done..| |done].
    rewrite Hv. cbn [rejected_width]. by rewrite (proj2 (Z.ltb_ge W 0)).
  - intros capacity out Hout.
    destruct (str_returns capacity self out Ht Hh Hw Hout) as (-> & _).
    by rewrite Hres.
  - reflexivity.
  - intros x Hx. split; [done|].
    unfold justified. rewrite len_app, len_spaces. lia.
  - intros x Hx. unfold justified, spaces.
    by rewrite replicate_char_nonpos by lia.
Qed.

Lemma explicit_width_cells_witness :
  let self :=
    mkSimpleTable (Atom (PyStr "Hello")) (Seq ListK [PyStr "X"; PyStr "Y"])
                  [Column ListK [PyStr "a"; PyStr "bb"]; Column ListK [PyStr "ccccc"]]
                  (Atom (PyInt 4)) (Atom PyNone) in
  (0 <= 4 ->
   forall capacity, fits capacity (render self 4) = true ->
                    (__str__ capacity self).1 = Return (render self 4))
  /\ (forall capacity out,
        (__str__ capacity self).1 = Return out -> out = render self 4)
  /\ render self 4
     = title_block self
       +:+ (if is_none (header self) then ""
            else rule self
                 +:+ join ((fun x => justified 4 x +:+ ver_char)
                             <$> header_items self)
                 +:+ nl)
       +:+ rule self
       +:+ join ((fun row =>
                    join ((fun x => justified 4 x +:+ ver_char) <$> row) +:+ nl)
                   <$> data_rows self)
       +:+ rule self
  /\ (forall x, len (str x) <= 4 ->
                justified 4 x = spaces (4 - len (str x)) +:+ str x
                /\ len (justified 4 x) = 4)
  /\ (forall x, 4 < len (str x) -> justified 4 x = str x).
Proof.
  intros self. apply (explicit_width_cells self 4); reflexivity.
Defined.

(** C2, as the code behaves: for the columns [["a","bb"],["ccc"]] with no
    header, title or width, the automatic width is 3, the rules are 8 wide,
    row [i] takes item [i] of each column with the empty string for the
    missing one, and the data rows are the two lines [  a|ccc|] and
    [ bb|   |]; rendering returns the 36 characters of the text when there
    is room for them. *)
Theorem example_render :
  exists self,
    new example_columns [] = Return self
    /\ auto_columnwidth self = Atom (PyInt 3)
    /\ (_get_table_width self).1 = Return ((3 + 1) * 2)
    /\ data_rows self = [[PyStr "a"; PyStr "ccc"]; [PyStr "bb"; PyStr ""]]
    /\ (forall capacity,
          36 <= capacity ->
          (__str__ capacity self).1
          = Return ("--------" +:+ nl
                    +:+ "  a|ccc|" +:+ nl +:+ " bb|   |" +:+ nl
                    +:+ "--------" +:+ nl)).
Proof.
  eexists. split; [vm_compute; reflexivity|].
  split; [reflexivity|]. split; [reflexivity|]. split; [reflexivity|].
  intros capacity Hcap. rewrite str_fits; [by vm_compute|reflexivity..|].
  unfold fits, room.
  match goal with
  | |- context [len ?s] => replace (len s) with 36 by (vm_compute; reflexivity)
  end.
  rewrite (proj2 (Z.leb_le 36 capacity)) by done. reflexivity.
Qed.

(** C2, as it is written: the data rows are not the text
    [  a  |ccc|], [ bb  |   |], however much room there is. *)
Lemma example_render_not_as_claimed :
  ~ (exists self capacity,
        new example_columns [] = Return self
        /\ (__str__ capacity self).1
           = Return ("--------" +:+ nl
                     +:+ "  a  |ccc|" +:+ nl +:+ " bb  |   |" +:+ nl
                     +:+ "--------" +:+ nl)).
Proof.
  intros (self & capacity & Hnew & Hstr). vm_compute in Hnew.
  injection Hnew as <-.
  apply str_returns in Hstr as (Hout & _); [|reflexivity..].
  vm_compute in Hout. discriminate Hout.
Qed.

(** ** [zip_longest] *)

Lemma longest_cons c cols : longest (c :: cols) = (length c `max` longest cols)%nat.
Proof. reflexivity. Qed.

Lemma longest_rectangular (cols : list (list item)) n :
  Forall (fun c => length c = n) cols -> cols <> [] -> longest cols = n.
Proof.
  induction 1 as [|c cols Hc Hcols IH]; [done|]. intros _.
  rewrite longest_cons. destruct cols as [|c' cols'].
  - unfold longest. cbn. lia.
  - rewrite IH by done. lia.
Qed.

Lemma length_zip_longest cols fill :
  length (zip_longest cols fill) = longest cols.
Proof. unfold zip_longest. by rewrite length_fmap, length_seq. Qed.

Lemma zip_longest_lookup cols fill i :
  (i < longest cols)%nat ->
  zip_longest cols fill !! i = Some ((fun c => nth i c fill) <$> cols).
Proof.
  intros Hi. unfold zip_longest.
  by rewrite list_lookup_fmap, lookup_seq_lt.
Qed.

Lemma zip_longest_rows_length cols fill :
  Forall (fun row => length row = length cols) (zip_longest cols fill).
Proof.
  unfold zip_longest. apply Forall_fmap, Forall_forall. intros i _. cbn.
  by rewrite length_fmap.
Qed.

Lemma zip_longest_rows_nonempty cols fill :
  Forall (fun row => row <> []) (zip_longest cols fill).
Proof.
  destruct cols as [|c cols]; [constructor|].
  eapply Forall_impl; [apply zip_longest_rows_length|].
  by intros [|x row].
Qed.

Lemma nth_seq_id (c : list item) fill :
  (fun i => nth i c fill) <$> seq 0 (length c) = c.
Proof.
  apply list_eq. intros i. rewrite list_lookup_fmap.
  destruct (decide (i < length c)%nat) as [Hi|Hi].
  - rewrite lookup_seq_lt by done. cbn.
    destruct (lookup_lt_is_Some_2 c i Hi) as [x Hx].
    by rewrite Hx, (nth_lookup_Some _ _ _ _ Hx).
  - rewrite lookup_seq_ge by lia. symmetry. apply lookup_ge_None. lia.
Qed.

(** Zipping twice gives the columns back when they all have the same,
    positive, number of items. *)
Lemma zip_longest_involutive (cols : list (list item)) n fill :
  Forall (fun c => length c = n) cols -> (0 < n)%nat ->
  zip_longest (zip_longest cols fill) fill = cols.
Proof.
  intros Hrect Hn. destruct (decide (cols = [])) as [->|Hne]; [done|].
  pose proof (longest_rectangular cols n Hrect Hne) as Hlong.
  assert (longest (zip_longest cols fill) = length cols) as Hlong'.
  { apply longest_rectangular; [apply zip_longest_rows_length|].
    intros Hnil. apply (f_equal length) in Hnil.
    rewrite length_zip_longest, Hlong in Hnil. cbn in Hnil. lia. }
  apply list_eq. intros j.
  destruct (decide (j < length cols)%nat) as [Hj|Hj].
  - rewrite zip_longest_lookup by lia.
    destruct (lookup_lt_is_Some_2 cols j Hj) as [c Hc]. rewrite Hc. f_equal.
    unfold zip_longest. rewrite Hlong, <- list_fmap_compose.
    rewrite Forall_lookup in Hrect.
    etrans; [|apply (nth_seq_id c fill)].
    rewrite (Hrect _ _ Hc). apply list_fmap_ext. intros _ i _. cbn.
    rewrite (nth_lookup _ j), list_lookup_fmap, Hc. done.
  - rewrite !(proj2 (lookup_ge_None _ _)); [done|lia|].
    rewrite length_zip_longest. lia.
Qed.

(** ** [transpose] without a header *)

Lemma col_items_zipped cs :
  col_items <$> zipped cs = zip_longest (col_items <$> cs) (PyStr "").
Proof.
  unfold zipped. rewrite <- list_fmap_compose. apply list_fmap_id.
Qed.

Lemma transpose_no_header_run self :
  is_none (header self) = true ->
  transpose self = (Return tt, set_columns (zipped (columns self)) self).
Proof. intros Hnone. unfold transpose, bind, get. by rewrite Hnone. Qed.




(** ** [transpose] with a header *)

Lemma set_columns_id self : set_columns (columns self) self = self.
Proof. by destruct self. Qed.

Lemma list_columns_id (cs : list column) :
  Forall (fun c => col_kind c = ListK) cs ->
  Column ListK <$> (col_items <$> cs) = cs.
Proof.
  induction 1 as [|[k xs] cs Hk _ IH]; [done|].
  cbn in Hk. subst k. rewrite !fmap_cons. cbn. by rewrite IH.
Qed.

Lemma insert_front_list x c :
  col_kind c = ListK ->
  insert_front x c = Return (Column ListK (x :: col_items c)).
Proof. intros Hc. unfold insert_front. by rewrite Hc. Qed.

(** The first loop: the header items go to the front of the columns. *)
Lemma prepend_loop hs :
  forall i done rest self,
    length done = i ->
    Forall (fun c => col_kind c = ListK) rest ->
    columns self = done ++ rest ->
    for_each (zip (seq i (length hs)) hs)
      (fun '(index, item) =>
         let! cols := get columns in
         if bool_decide (index < length cols)%nat then
           match cols !! index with
           | Some c =>
               let! c' := lift (insert_front item c) in
               modify (set_columns (<[index := c']> cols))
           | None => raise (Exn IndexError None)
           end
         else append_column (Column ListK [item])) self
    = (Return tt,
       set_columns (done ++ (Column ListK <$> enlarge hs (col_items <$> rest)))
                   self).
Proof.
  induction hs as [|h hs IH]; intros i done rest self Hi Hrest Hcols.
  - cbn. rewrite list_columns_id by done. rewrite <- Hcols.
    by rewrite set_columns_id.
  - cbn [length seq zip zip_with]. unfold for_each in *. cbn [for_in].
    unfold bind at 1. unfold bind at 1. unfold get at 1. rewrite Hcols.
    destruct rest as [|c rest].
    + rewrite bool_decide_eq_false_2 by (rewrite length_app; cbn; lia).
      unfold append_column, modify at 1.
      rewrite (IH (S i) (done ++ [Column ListK [h]]) []);
        [|rewrite length_app; cbn; lia|done
         |cbn; by rewrite Hcols, !app_nil_r].
      cbn. rewrite Hcols, app_nil_r. by rewrite <- app_assoc.
    + rewrite bool_decide_eq_true_2 by (rewrite length_app; cbn; lia).
      rewrite <- Hi, list_lookup_middle by done.
      apply Forall_cons in Hrest as [Hc Hrest].
      unfold bind at 1. unfold lift at 1. rewrite insert_front_list by done.
      unfold modify at 1.
      rewrite insert_app_r_alt, Nat.sub_diag by done.
      change (<[0%nat:=?x]> (c :: rest)) with (x :: rest).
      rewrite (IH (S (length done))
                  (done ++ [Column ListK (h :: col_items c)]) rest);
        [|rewrite length_app; cbn; lia|done
         |cbn; by rewrite <- app_assoc].
      cbn. by rewrite <- app_assoc.
Qed.

(** The second loop: the first item of every group goes to the header. *)
Lemma header_loop (gs : list (list item)) :
  forall acc self,
    header self = Seq ListK acc ->
    Forall (fun g => g <> []) gs ->
    for_each (Column TupleK <$> gs)
      (fun column => let! x := lift (first_item column) in header_append x) self
    = (Return tt,
       set_header (Seq ListK (acc ++ ((fun g => nth 0 g (PyStr "")) <$> gs))) self).
Proof.
  induction gs as [|g gs IH]; intros acc self Hh Hgs.
  - cbn. rewrite app_nil_r, <- Hh. by destruct self.
  - apply Forall_cons in Hgs as [Hg Hgs].
    destruct g as [|x g]; [done|].
    rewrite fmap_cons. unfold for_each in *. cbn [for_in].
    unfold bind at 1. unfold bind at 1. unfold lift at 1. cbn [first_item col_items].
    unfold header_append at 1. unfold bind at 1. unfold get at 1. rewrite Hh.
    unfold modify at 1.
    rewrite (IH (acc ++ [x])); [|done|done].
    cbn. by rewrite <- app_assoc.
Qed.

(** The third loop: every group loses its first item and becomes a list. *)
Lemma tail_loop (cs : list column) :
  forall i done self,
    length done = i ->
    columns self = done ++ cs ->
    for_each (zip (seq i (length cs)) cs)
      (fun '(index, column) =>
         modify (fun self =>
                   set_columns
                     (<[index := Column ListK (drop 1 (col_items column))]>
                        (columns self)) self)) self
    = (Return tt,
       set_columns
         (done ++ ((fun c => Column ListK (drop 1 (col_items c))) <$> cs)) self).
Proof.
  induction cs as [|c cs IH]; intros i done self Hi Hcols.
  - cbn. rewrite <- Hcols. by rewrite set_columns_id.
  - cbn [length seq zip zip_with]. unfold for_each in *. cbn [for_in].
    unfold bind at 1. unfold modify at 1. rewrite Hcols.
    rewrite <- Hi.
    rewrite insert_app_r_alt, Nat.sub_diag by done.
    change (<[0%nat:=?x]> (c :: cs)) with (x :: cs).
    rewrite (IH (S (length done))
                (done ++ [Column ListK (drop 1 (col_items c))]));
      [|rewrite length_app; cbn; lia|cbn; by rewrite <- app_assoc].
    cbn. by rewrite <- app_assoc.
Qed.

Lemma transpose_header_run self k hs :
  header self = Seq k hs ->
  Forall (fun c => col_kind c = ListK) (columns self) ->
  transpose self = (Return tt, transposed self).
Proof.
  intros Hh Hlists. unfold transpose.
  unfold bind at 1. unfold get at 1. rewrite Hh. cbn [is_none].
  unfold bind at 1. unfold lift at 1. cbn [py_iter].
  unfold bind at 1. unfold enumerate.
  rewrite (prepend_loop hs 0 [] (columns self) self) by done.
  cbn [app].
  unfold bind at 1. unfold get at 1. cbn [columns set_columns].
  unfold bind at 1. unfold modify at 1.
  unfold bind at 1. unfold modify at 1.
  unfold bind at 1. unfold get at 1. cbn [columns set_columns set_header].
  unfold bind at 1. unfold zipped. rewrite <- list_fmap_compose.
  rewrite (list_fmap_id (enlarge hs (col_items <$> columns self))).
  rewrite (header_loop _ []); [|done|apply zip_longest_rows_nonempty].
  unfold bind at 1. unfold get at 1. cbn [columns set_columns set_header].
  rewrite (tail_loop _ 0 []); [|done|done].
  unfold transposed, groups, header_items. rewrite Hh.
  cbn. by rewrite <- list_fmap_compose.
Qed.

(** The positions of [enlarge]: header item [i] in front of column [i], alone
    when there is no column [i]; the columns beyond the header unchanged. *)
Lemma enlarge_lookup hs (cols : list (list item)) i :
  enlarge hs cols !! i
  = match hs !! i, cols !! i with
    | Some h, Some c => Some (h :: c)
    | Some h, None => Some [h]
    | None, oc => oc
    end.
Proof.
  revert cols i. induction hs as [|h hs IH]; intros cols i.
  - cbn. by destruct (cols !! i).
  - destruct cols as [|c cols]; destruct i as [|i]; cbn; try done.
    all: rewrite IH; by destruct (hs !! i).
Qed.

Lemma groups_split self :
  zip_with cons ((fun g => nth 0 g (PyStr "")) <$> groups self)
                ((fun g => drop 1 g) <$> groups self)
  = groups self.
Proof.
  unfold groups.
  pose proof (zip_longest_rows_nonempty
                (enlarge (header_items self) (col_items <$> columns self))
                (PyStr "")) as Hne.
  induction Hne as [|g gs Hg _ IH]; [done|].
  rewrite !fmap_cons. cbn [zip_with]. rewrite IH.
  by destruct g.
Qed.

(** What [transpose] does to a table with a header whose columns are lists:
    the header items are put in front of the columns by position, the
    enlarged columns are zipped with the empty string as fill, and every
    resulting group is split into its first item, which goes to the new
    header, and the rest, which is the new column. *)
Lemma transpose_with_header_lists (self : SimpleTable) k hs :
  header self = Seq k hs ->
  Forall (fun c => col_kind c = ListK) (columns self) ->
  exists enlarged new_header new_columns after,
    (forall i,
        enlarged !! i
        = match hs !! i, (col_items <$> columns self) !! i with
          | Some h, Some c => Some (h :: c)
          | Some h, None => Some [h]
          | None, oc => oc
          end)
    /\ transpose self = (Return tt, after)
    /\ header after = Seq ListK new_header
    /\ columns after = Column ListK <$> new_columns
    /\ zip_with cons new_header new_columns = zip_longest enlarged (PyStr "")
    /\ title after = title self
    /\ columnwidth after = columnwidth self.
Proof.
  intros Hh Hlists.
  exists (enlarge hs (col_items <$> columns self)),
         ((fun g => nth 0 g (PyStr "")) <$> groups self),
         ((fun g => drop 1 g) <$> groups self),
         (transposed self).
  split; [intros i; apply enlarge_lookup|].
  split; [by apply (transpose_header_run self k hs)|].
  split; [done|]. split.
  { unfold transposed. cbn [columns set_columns].
    by rewrite <- list_fmap_compose. }
  split; [|done].
  rewrite groups_split. unfold groups, header_items. by rewrite Hh.
Qed.

(** C5, at an instance the public methods reach: after a transposition
    without header the columns are tuples; once a header is set, [transpose]
    raises [AttributeError] at the first header item, and no header item is
    put in front of its column. *)
Theorem transpose_with_header_on_tuples_raises :
  exists t0 t1 t2 t3,
    new [Seq ListK [PyInt 1; PyInt 2]; Seq ListK [PyInt 3; PyInt 4]] []
    = Return t0
    /\ transpose t0 = (Return tt, t1)
    /\ columns t1 = [Column TupleK [PyInt 1; PyInt 3];
                     Column TupleK [PyInt 2; PyInt 4]]
    /\ set [("header", Seq ListK [PyStr "a"; PyStr "b"])] t1 = (Return tt, t2)
    /\ transpose t2 = (Raised (Exn AttributeError None), t3)
    /\ columns t3 = columns t1
    /\ header t3 = Seq ListK [PyStr "a"; PyStr "b"].
Proof. eexists _, _, _, _. repeat split; reflexivity. Qed.




(** ** Invariants of the instance *)

Section preservation.
Context (P : SimpleTable -> Prop).

Lemma preserves_ret {A} (a : A) : preserves P (ret a).
Proof. by intros s o s' HP [= <- <-]. Qed.

Lemma preserves_raise {A} e : preserves P (@raise A e).
Proof. by intros s o s' HP [= <- <-]. Qed.

Lemma preserves_lift {A} (x : outcome A) : preserves P (lift x).
Proof. by intros s o s' HP [= <- <-]. Qed.

Lemma preserves_get {A} (f : SimpleTable -> A) : preserves P (get f).
Proof. by intros s o s' HP [= <- <-]. Qed.

Lemma preserves_modify f : (forall s, P s -> P (f s)) -> preserves P (modify f).
Proof. intros Hf s o s' HP [= <- <-]. by apply Hf. Qed.

Lemma preserves_bind {A B} (m : M A) (k : A -> M B) :
  preserves P m -> (forall a, preserves P (k a)) -> preserves P (bind m k).
Proof.
  intros Hm Hk s o s' HP. unfold bind.
  destruct (m s) as [[a|e] s1] eqn:Hms.
  - apply (Hk a). by apply (Hm _ _ _ HP Hms).
  - intros [= <- <-]. by apply (Hm _ _ _ HP Hms).
Qed.

Lemma preserves_for_in {A B} (xs : list A) (body : B -> A -> M B) acc :
  (forall acc x, preserves P (body acc x)) -> preserves P (for_in xs body acc).
Proof.
  intros Hbody. revert acc. induction xs as [|x xs IH]; intros acc; cbn.
  - apply preserves_ret.
  - apply preserves_bind; [apply Hbody|]. intros acc'. apply IH.
Qed.

Lemma preserves_for_each {A} (xs : list A) (body : A -> M unit) :
  (forall x, preserves P (body x)) -> preserves P (for_each xs body).
Proof. intros Hbody. apply preserves_for_in. intros _ x. apply Hbody. Qed.
End preservation.

Create HintDb preserves.
#[local] Hint Resolve preserves_ret preserves_raise preserves_lift preserves_get
  : preserves.

(** Takes a method body apart along its binds, loops and branches; what is
    left are the stores into the instance. *)
Ltac preserve :=
  repeat first
    [ progress auto with preserves
    | apply preserves_bind; [|intros ?]
    | apply preserves_for_in; intros ? ?
    | apply preserves_for_each; intros ?
    | match goal with
      | |- preserves _ (if ?b then _ else _) => destruct b
      | |- preserves _ (match ?x with _ => _ end) => destruct x
      | |- preserves _ (let '(_, _) := ?p in _) => destruct p
      end ].

Lemma well_typed_set_auto v self :
  well_typed self -> well_typed (set_auto_columnwidth v self).
Proof. done. Qed.

Lemma well_typed_set_columns cs self :
  well_typed self -> well_typed (set_columns cs self).
Proof. done. Qed.

Lemma well_typed_set_header k xs self :
  well_typed self -> well_typed (set_header (Seq k xs) self).
Proof. intros (Ht & _ & Hw). by split. Qed.

Lemma automatic_columnwidth_well_typed :
  preserves well_typed __automatic_columnwidth.
Proof.
  unfold __automatic_columnwidth. preserve.
  all: apply preserves_modify; intros s; apply well_typed_set_auto.
Qed.

#[local] Hint Resolve automatic_columnwidth_well_typed : preserves.

Lemma get_table_width_well_typed : preserves well_typed _get_table_width.
Proof. unfold _get_table_width. preserve. Qed.

Lemma cell_preserves P capacity v x : preserves P (cell capacity v x).
Proof. unfold cell. preserve. Qed.

Lemma iadd_preserves P capacity s piece : preserves P (iadd capacity s piece).
Proof. unfold iadd. preserve. Qed.

#[local] Hint Resolve get_table_width_well_typed cell_preserves iadd_preserves
  : preserves.

Lemma str_well_typed capacity : preserves well_typed (__str__ capacity).
Proof. unfold __str__. preserve. Qed.

Lemma transpose_well_typed : preserves well_typed transpose.
Proof.
  unfold transpose, header_append, append_column. preserve.
  all: apply preserves_modify; intros s;
    first [ apply well_typed_set_columns | apply well_typed_set_header ].
Qed.

(** A call of [__parse_keyword_arguments] that returns has stored every
    recognised option, and every option has passed its type check. *)
Lemma parse_returns kw keys self self' :
  for_each keys (parse_keyword_argument kw) self = (Return tt, self') ->
  Forall (fun k => type_ok k (kwargs_get kw k) = true) keys
  /\ self' = foldl (fun s k => assign kw k s) self keys.
Proof.
  revert self. induction keys as [|k keys IH]; intros self.
  - by intros [= <-].
  - unfold for_each in *. cbn [for_in]. unfold bind at 1.
    rewrite parse_keyword_argument_run.
    destruct (type_ok k (kwargs_get kw k)) eqn:Hk; [|done].
    intros [Hkeys ->]%IH. split; [by constructor|done].
Qed.

Lemma assign_well_typed kw k self :
  type_ok k (kwargs_get kw k) = true ->
  well_typed self -> well_typed (assign kw k self).
Proof.
  unfold type_ok, assign, well_typed,
    valid_title, valid_header, valid_columnwidth.
  intros Hk (Ht & Hh & Hw).
  repeat case_bool_decide; subst; cbn; rewrite ?Hk, ?orb_true_r; done.
Qed.

Lemma parse_well_typed kw keys self self' :
  for_each keys (parse_keyword_argument kw) self = (Return tt, self') ->
  well_typed self -> well_typed self'.
Proof.
  intros [Hkeys ->]%parse_returns. revert self.
  induction Hkeys as [|k keys Hk _ IH]; intros self Hself; [done|].
  cbn. apply IH. by apply assign_well_typed.
Qed.

Lemma init_columns_well_typed (cols : list value) :
  preserves well_typed
    (for_each cols
       (fun column =>
          if isinstance_seq column then
            let! xs := lift (py_iter column) in append_column (Column ListK xs)
          else
            match py_iter column with
            | Raised _ => raise (Exn TypeError (Some "column must be iterable"))
            | Return xs => append_column (Column ListK xs)
            end)).
Proof.
  unfold append_column. preserve.
  all: apply preserves_modify; intros s; apply well_typed_set_columns.
Qed.

Lemma new_well_typed cols kw self :
  new cols kw = Return self -> well_typed self.
Proof.
  unfold new, __init__. unfold bind at 1. unfold modify at 1.
  unfold bind at 1.
  destruct (for_each cols _ fresh) as [[[]|e] s1] eqn:Hcols; [|done].
  assert (well_typed s1) as Hs1.
  { by apply (init_columns_well_typed cols fresh (Return tt) s1). }
  unfold bind at 1.
  destruct (__parse_keyword_arguments kw s1) as [[[]|e] s2] eqn:Hparse; [|done].
  assert (well_typed s2) as Hs2 by by apply (parse_well_typed kw (kw.*1) s1).
  unfold bind, get.
  destruct (is_none (columnwidth s2)).
  - destruct (__automatic_columnwidth s2) as [[[]|e] s3] eqn:Hauto; [|done].
    intros [= <-].
    by apply (automatic_columnwidth_well_typed s2 (Return tt) s3 Hs2 Hauto).
  - by intros [= <-].
Qed.

(** Every reachable instance is well typed. *)
Theorem reachable_well_typed self : reachable self -> well_typed self.
Proof.
  induction 1 as [cols kw self Hnew
                 |kw self self' _ IH Hset
                 |self o self' _ IH Htr
                 |capacity self o self' _ IH Hstr].
  - by apply (new_well_typed cols kw).
  - by apply (parse_well_typed kw (kw.*1) self).
  - by apply (transpose_well_typed self o self').
  - by apply (str_well_typed capacity self o self').
Qed.

(** After construction every column is a list. *)
Lemma new_columns_lists cols kw self :
  new cols kw = Return self ->
  Forall (fun c => col_kind c = ListK) (columns self).
Proof.
  set (P := fun s => Forall (fun c => col_kind c = ListK) (columns s)).
  assert (preserves P (__init__ cols kw)) as Hinit.
  { unfold __init__, __parse_keyword_arguments, parse_keyword_argument,
      __automatic_columnwidth, append_column.
    preserve.
    all: apply preserves_modify; intros s Hs; unfold P in *; cbn.
    all: first [ done | by constructor
               | apply Forall_app; split; [done|by constructor] ]. }
  unfold new. destruct (__init__ cols kw fresh) as [[[]|e] s] eqn:Hrun; [|done].
  intros [= <-]. apply (Hinit fresh (Return tt) s); [constructor|done].
Qed.

(** X19: a freshly constructed instance can be transposed: the first call
    of [transpose] after a constructor call that returned never raises. *)
Lemma new_transpose_returns cols kw self :
  new cols kw = Return self ->
  exists after, transpose self = (Return tt, after).
Proof.
  intros Hnew.
  pose proof (new_columns_lists _ _ _ Hnew) as Hlists.
  destruct (new_well_typed _ _ _ Hnew) as (_ & Hh & _).
  destruct (is_none (header self)) eqn:Hnone.
  - eexists. by apply transpose_no_header_run.
  - destruct (header self) as [[]|k hs] eqn:Hhs; try done.
    eexists. by apply (transpose_header_run self k hs).
Qed.


(** * Further properties *)

(** ** Construction and [set] *)


Lemma columns_assign kw k self : columns (assign kw k self) = columns self.
Proof. unfold assign. by repeat case_bool_decide. Qed.

Lemma auto_columnwidth_assign kw k self :
  auto_columnwidth (assign kw k self) = auto_columnwidth self.
Proof. unfold assign. by repeat case_bool_decide. Qed.

Lemma columns_assign_all kw keys self :
  columns (foldl (fun s k => assign kw k s) self keys) = columns self
  /\ auto_columnwidth (foldl (fun s k => assign kw k s) self keys)
     = auto_columnwidth self.
Proof.
  revert self. induction keys as [|k keys IH]; intros self; [done|].
  cbn. destruct (IH (assign kw k self)) as [-> ->].
  by rewrite columns_assign, auto_columnwidth_assign.
Qed.


(** X1: a positional argument that cannot be iterated ([None], a [bool], an
    [int]) makes the constructor raise the [TypeError] "column must be
    iterable", whatever the keyword arguments are: the columns are read
    before the options. *)
Theorem new_rejects_non_iterable_column (cols : list value) (kw : kwargs)
    (v : value) :
  v ∈ cols ->
  (v = Atom PyNone \/ (exists b, v = Atom (PyBool b)) \/ (exists n, v = Atom (PyInt n))) ->
  new cols kw = Raised (Exn TypeError (Some "column must be iterable")).
Proof.
  intros Hin Hv.
  assert (forallb iterable cols = false) as Hall.
  { apply not_true_iff_false. intros Hall.
    rewrite forallb_forall in Hall.
    apply list_elem_of_In in Hin. specialize (Hall v Hin).
    destruct Hv as [-> | [[b ->] | [n ->]]]; done. }
  unfold new, __init__. unfold bind at 1. unfold modify at 1.
  unfold bind at 1.
  destruct (init_columns_run cols fresh) as [self' ->].
  by rewrite Hall.
Qed.

Lemma new_rejects_non_iterable_column_witness :
  new [Seq ListK [PyStr "a"]; Atom (PyInt 5)] [("title", Atom (PyInt 3))]
  = Raised (Exn TypeError (Some "column must be iterable")).
Proof.
  apply (new_rejects_non_iterable_column _ _ (Atom (PyInt 5))).
  - apply elem_of_cons. right. apply elem_of_cons. by left.
  - right. right. by exists 5.
Defined.



(** X3: when every option passes its type check, [set] returns; each
    recognised option that was passed holds its new value, the attributes
    that were not passed keep their old value, and neither the columns nor
    the stored automatic width change. *)
Theorem set_applies_options (kw : kwargs) (self : SimpleTable) :
  Forall (fun k => type_ok k (kwargs_get kw k) = true) (kw.*1) ->
  exists self',
    set kw self = (Return tt, self')
    /\ (forall k, recognized k ->
                  field k self'
                  = if bool_decide (k ∈ kw.*1) then kwargs_get kw k
                    else field k self)
    /\ columns self' = columns self
    /\ auto_columnwidth self' = auto_columnwidth self.
Proof.
  intros Hkw. eexists. split; [|split].
  - unfold set, __parse_keyword_arguments. by apply parse_all_ok.
  - intros k Hk. by apply field_assign_all.
  - apply columns_assign_all.
Qed.

Lemma set_applies_options_witness :
  exists self',
    set [("columnwidth", Atom (PyInt 14)); ("title", Atom (PyStr "T"))] fresh
    = (Return tt, self')
    /\ (forall k, recognized k ->
                  field k self'
                  = if bool_decide
                         (k ∈ [("columnwidth", Atom (PyInt 14));
                               ("title", Atom (PyStr "T"))].*1)
                    then kwargs_get [("columnwidth", Atom (PyInt 14));
                                     ("title", Atom (PyStr "T"))] k
                    else field k fresh)
    /\ columns self' = columns fresh
    /\ auto_columnwidth self' = auto_columnwidth fresh.
Proof.
  apply (set_applies_options
           [("columnwidth", Atom (PyInt 14)); ("title", Atom (PyStr "T"))] fresh).
  repeat constructor.
Defined.

(** X4: options other than [title], [header] and [columnwidth] are ignored
    without an error, whatever their values: [set] returns and the instance
    is unchanged. *)
Theorem set_ignores_unrecognized (kw : kwargs) (self : SimpleTable) :
  Forall (fun k => ~ recognized k) (kw.*1) ->
  set kw self = (Return tt, self).
Proof.
  intros Hkw. unfold set, __parse_keyword_arguments.
  assert (forall k, ~ recognized k ->
                    type_ok k (kwargs_get kw k) = true
                    /\ forall s, assign kw k s = s) as Hign.
  { intros k Hk. unfold type_ok, assign, recognized in *.
    repeat case_bool_decide; subst; tauto. }
  rewrite parse_all_ok.
  - f_equal. induction Hkw as [|k keys Hk _ IH]; [done|].
    cbn. by rewrite (proj2 (Hign k Hk)).
  - eapply Forall_impl; [exact Hkw|]. intros k Hk. by apply Hign.
Qed.

Lemma set_ignores_unrecognized_witness :
  set [("colour", Atom (PyStr "red")); ("width", Atom (PyInt 3))] fresh
  = (Return tt, fresh).
Proof.
  apply (set_ignores_unrecognized
           [("colour", Atom (PyStr "red")); ("width", Atom (PyInt 3))] fresh).
  repeat constructor; intros [H | [H | H]]; discriminate H.
Defined.

(** ** What the methods leave alone *)

Lemma set_frame kw (c : list column) (a : value) :
  preserves (fun s => columns s = c /\ auto_columnwidth s = a) (set kw).
Proof.
  unfold set, __parse_keyword_arguments, parse_keyword_argument. preserve.
  all: apply preserves_modify; by intros s [? ?].
Qed.

Lemma str_frame capacity (t h : value) (c : list column) (w : value) :
  preserves (fun s => title s = t /\ header s = h /\ columns s = c
                      /\ columnwidth s = w) (__str__ capacity).
Proof.
  unfold __str__, _get_table_width, __automatic_columnwidth. preserve.
  all: apply preserves_modify; by intros s (? & ? & ? & ?).
Qed.

(** X5: [set] never changes the columns nor the stored automatic width,
    whether it returns or raises; in particular it does not recompute the
    automatic width when a new header is set. *)
Theorem set_keeps_columns (kw : kwargs) (self : SimpleTable) :
  columns (set kw self).2 = columns self
  /\ auto_columnwidth (set kw self).2 = auto_columnwidth self.
Proof.
  destruct (set kw self) as [o self'] eqn:Hset. cbn [snd].
  by apply (set_frame kw (columns self) (auto_columnwidth self) self o self').
Qed.

(** X6: rendering never changes the title, the header, the columns or the
    column width, whether it returns or raises and whatever the attributes
    hold; the stored automatic width is the only attribute it writes. *)
Theorem str_keeps_content (capacity : Z) (self : SimpleTable) :
  title (__str__ capacity self).2 = title self
  /\ header (__str__ capacity self).2 = header self
  /\ columns (__str__ capacity self).2 = columns self
  /\ columnwidth (__str__ capacity self).2 = columnwidth self.
Proof.
  destruct (__str__ capacity self) as [o self'] eqn:Hstr. cbn [snd].
  by apply (str_frame capacity (title self) (header self) (columns self)
                      (columnwidth self) self o self').
Qed.

(** ** The automatic width *)






(** ** The shape of the rendered text *)






Lemma table_width_nonneg self : 0 <= table_width self.
Proof.
  unfold table_width, title_width.
  destruct (title self) as [[| | |s]|]; try lia.
  pose proof (len_nonneg s). lia.
Qed.

Lemma len_rule self : len (rule self) = table_width self + 1.
Proof.
  unfold rule. rewrite len_app. unfold len at 1.
  rewrite length_replicate_char. pose proof (table_width_nonneg self).
  change (len nl) with 1. lia.
Qed.



(** X9: the title line is as wide as the horizontal rule.  The title is
    followed by the border and padded to the table width, with at least one
    space of padding and the smaller half of it on the left, so a title that
    alone decides the table width starts in the first column.  Every text
    that rendering returns starts with the rule and this line. *)
Theorem title_line_spans_table (self : SimpleTable) (s : string) :
  title self = Atom (PyStr s) ->
  valid_header (header self) = true ->
  valid_columnwidth (columnwidth self) = true ->
  let pad := table_width self - 1 - len s in
  let line := spaces (pad / 2) +:+ s +:+ spaces (pad - pad / 2) +:+ ver_char in
  1 <= pad
  /\ len line = table_width self
  /\ len (rule self) = len line + 1
  /\ (forall capacity out,
        (__str__ capacity self).1 = Return out ->
        exists rest, out = rule self +:+ line +:+ nl +:+ rest).
Proof.
  intros Ht Hh Hw pad line.
  pose proof (table_width_title self s Ht) as Htw.
  pose proof (len_nonneg s) as Hs.
  assert (1 <= pad) as Hpad by (unfold pad; lia).
  assert (len line = table_width self) as Hline.
  { unfold line. rewrite !len_app, !len_spaces.
    change (len ver_char) with 1.
    assert (0 <= pad / 2 <= pad) by (split; [apply Z.div_pos|apply Z.div_le_upper_bound]; lia).
    unfold pad in *. lia. }
  split; [done|]. split; [done|]. split; [rewrite len_rule; lia|].
  intros capacity out Hout.
  apply str_returns in Hout as (-> & _); [|by rewrite Ht|done|done].
  unfold render, title_block. rewrite Ht.
  exists (header_block self (resolved_width self) +:+ rule self
          +:+ data_block self (resolved_width self) +:+ rule self).
  unfold centred. fold pad. rewrite (Z.max_r 0 pad) by lia.
  unfold line. by rewrite !string_app_assoc.
Qed.

Lemma title_line_spans_table_witness :
  let self :=
    mkSimpleTable (Atom (PyStr "Computers")) (Atom PyNone)
                  [Column ListK [PyStr "Z80"]; Column ListK [PyStr "1KB"]]
                  (Atom PyNone) (Atom PyNone) in
  let pad := table_width self - 1 - len "Computers" in
  let line :=
    spaces (pad / 2) +:+ "Computers" +:+ spaces (pad - pad / 2) +:+ ver_char in
  1 <= pad
  /\ len line = table_width self
  /\ len (rule self) = len line + 1
  /\ (forall capacity out,
        (__str__ capacity self).1 = Return out ->
        exists rest, out = rule self +:+ line +:+ nl +:+ rest).
Proof.
  intros self. apply (title_line_spans_table self "Computers"); reflexivity.
Defined.

(** Without a set width, [__str__] first stores the automatic width; what
    it does next depends on the instance only through the instance with the
    width stored. *)
Lemma str_after_refresh capacity :
  exists rest : SimpleTable -> outcome string * SimpleTable,
    forall self,
      is_none (columnwidth self) = true ->
      valid_header (header self) = true ->
      __str__ capacity self = rest (refresh self).
Proof.
  eexists. intros self Hnone Hh.
  unfold __str__. unfold bind at 1. unfold get at 1. rewrite Hnone.
  unfold bind at 1. unfold bind at 1.
  rewrite automatic_columnwidth_run by done. unfold get at 1.
  match goal with
  | |- ?lhs = ?r (refresh self) =>
      let f := eval pattern (refresh self) in lhs in
      match f with ?F _ => unify r F end
  end.
  reflexivity.
Qed.

(** X10: rendering can be repeated.  On an instance whose attributes have
    passed their type checks, a second call of [__str__] gives the outcome
    of the first one and leaves the instance as the first call left it. *)
Theorem render_is_repeatable (capacity : Z) (self : SimpleTable) :
  valid_title (title self) = true ->
  valid_header (header self) = true ->
  valid_columnwidth (columnwidth self) = true ->
  __str__ capacity (__str__ capacity self).2 = __str__ capacity self.
Proof.
  intros Ht Hh Hw.
  assert ((__str__ capacity self).2 = after_str self) as ->.
  { by destruct (str_outcome capacity self Ht Hh Hw) as (o & -> & _). }
  unfold after_str. destruct (is_none (columnwidth self)) eqn:Hnone; [|done].
  destruct (str_after_refresh capacity) as [rest Hrest].
  by rewrite (Hrest self), (Hrest (refresh self)).
Qed.

Lemma render_is_repeatable_witness :
  let self :=
    mkSimpleTable (Atom (PyStr "T")) (Seq ListK [PyStr "X"; PyStr "Y"])
                  [Column ListK [PyInt 1; PyInt 2]; Column ListK [PyStr "ccc"]]
                  (Atom PyNone) (Atom PyNone) in
  __str__ 1000 (__str__ 1000 self).2 = __str__ 1000 self.
Proof.
  intros self. apply (render_is_repeatable 1000 self); reflexivity.
Defined.

(** ** Transposition without a header *)

Lemma nth_pad_to n (c : list item) i :
  nth i (pad_to n c) (PyStr "") = nth i c (PyStr "").
Proof.
  unfold pad_to. rewrite !nth_lookup.
  destruct (decide (i < length c)%nat) as [Hi | Hi].
  - by rewrite lookup_app_l.
  - rewrite lookup_app_r by lia.
    rewrite (proj2 (lookup_ge_None c i)) by lia.
    destruct (replicate _ _ !! _) as [y|] eqn:Hy; [|done].
    by apply lookup_replicate in Hy as [-> _].
Qed.

Lemma length_pad_to n (c : list item) :
  (length c <= n)%nat -> length (pad_to n c) = n.
Proof. intros Hc. unfold pad_to. rewrite length_app, length_replicate. lia. Qed.

Lemma longest_upper (c : list item) cols : c ∈ cols -> (length c <= longest cols)%nat.
Proof.
  induction cols as [|d cols IH]; [by intros ?%elem_of_nil|].
  rewrite longest_cons. intros [-> | Hin]%elem_of_cons; [lia|].
  specialize (IH Hin). lia.
Qed.

Lemma pad_to_rectangular cols :
  Forall (fun c => length c = longest cols) (pad_to (longest cols) <$> cols).
Proof.
  apply Forall_fmap, Forall_forall. intros c Hc. cbn.
  by apply length_pad_to, longest_upper.
Qed.

Lemma zip_longest_pad_to cols :
  zip_longest (pad_to (longest cols) <$> cols) (PyStr "")
  = zip_longest cols (PyStr "").
Proof.
  destruct (decide (cols = [])) as [-> | Hne]; [done|].
  unfold zip_longest.
  rewrite (longest_rectangular _ (longest cols) (pad_to_rectangular cols))
    by (by destruct cols).
  apply list_fmap_ext. intros _ i _.
  rewrite <- list_fmap_compose. apply list_fmap_ext. intros _ c _. cbn.
  apply nth_pad_to.
Qed.

(** X11: without a header, one transposition turns the [n] rows (the length
    of the longest column) into [n] tuple columns with one item per former
    column; a second transposition gives back the original columns, each
    filled up with empty strings to [n] items.  Ragged columns are therefore
    not restored, rectangular ones are. *)
Theorem transpose_twice_pads_columns (self : SimpleTable) :
  is_none (header self) = true ->
  (0 < longest (col_items <$> columns self))%nat ->
  let n := longest (col_items <$> columns self) in
  exists once twice,
    transpose self = (Return tt, once)
    /\ transpose once = (Return tt, twice)
    /\ length (columns once) = n
    /\ Forall (fun c => col_kind c = TupleK
                        /\ length (col_items c) = length (columns self))
              (columns once)
    /\ col_items <$> columns twice = pad_to n <$> (col_items <$> columns self).
Proof.
  intros Hnone Hn n. eexists _, _.
  split; [by apply transpose_no_header_run|].
  split; [by apply transpose_no_header_run|].
  cbn [columns set_columns]. split; [|split].
  - unfold zipped. by rewrite length_fmap, length_zip_longest.
  - unfold zipped. apply Forall_fmap.
    eapply Forall_impl; [apply zip_longest_rows_length|].
    intros row Hrow. cbn. by rewrite Hrow, length_fmap.
  - rewrite !col_items_zipped.
    rewrite <- (zip_longest_pad_to (col_items <$> columns self)).
    apply (zip_longest_involutive _ n); [apply pad_to_rectangular|done].
Qed.

Lemma transpose_twice_pads_columns_witness :
  let self :=
    mkSimpleTable (Atom PyNone) (Atom PyNone)
                  [Column ListK [PyStr "a"; PyStr "bb"]; Column ListK [PyStr "ccc"]]
                  (Atom PyNone) (Atom PyNone) in
  let n := longest (col_items <$> columns self) in
  exists once twice,
    transpose self = (Return tt, once)
    /\ transpose once = (Return tt, twice)
    /\ length (columns once) = n
    /\ Forall (fun c => col_kind c = TupleK
                        /\ length (col_items c) = length (columns self))
              (columns once)
    /\ col_items <$> columns twice = pad_to n <$> (col_items <$> columns self).
Proof.
  intros self. apply (transpose_twice_pads_columns self).
  - reflexivity.
  - vm_compute. lia.
Defined.

(** ** Transposition with a header *)

Lemma enlarge_same_length hs (cols : list (list item)) :
  length hs = length cols -> enlarge hs cols = zip_with cons hs cols.
Proof.
  revert cols. induction hs as [|h hs IH]; intros [|c cols] Hlen; try done.
  cbn in *. rewrite IH by lia. done.
Qed.

Lemma split_groups (gs : list (list item)) :
  Forall (fun g => g <> []) gs ->
  zip_with cons ((fun g => nth 0 g (PyStr "")) <$> gs) ((fun g => drop 1 g) <$> gs)
  = gs.
Proof.
  induction 1 as [|g gs Hg _ IH]; [done|].
  rewrite !fmap_cons. cbn [zip_with]. rewrite IH. by destruct g.
Qed.

Lemma firsts_zip_with_cons hs (cols : list (list item)) :
  length hs = length cols ->
  (fun g => nth 0 g (PyStr "")) <$> zip_with cons hs cols = hs
  /\ (fun g => drop 1 g) <$> zip_with cons hs cols = cols.
Proof.
  revert cols. induction hs as [|h hs IH]; intros [|c cols] Hlen; try done.
  cbn in Hlen. destruct (IH cols) as [IH1 IH2]; [lia|].
  cbn [zip_with]. rewrite !fmap_cons, IH1, IH2. done.
Qed.

Lemma transposed_columns_lists self :
  Forall (fun c => col_kind c = ListK) (columns (transposed self)).
Proof. unfold transposed. cbn. apply Forall_fmap, Forall_forall. done. Qed.

(** X12: a table with one header item per column and list columns of equal
    length is restored by two transpositions: the columns and all other
    attributes are as before, and the header holds the same items (as a
    list). *)
Theorem transpose_twice_with_header (self : SimpleTable) k hs (n : nat) :
  header self = Seq k hs ->
  length hs = length (columns self) ->
  Forall (fun c => col_kind c = ListK /\ length (col_items c) = n)
         (columns self) ->
  exists once,
    transpose self = (Return tt, once)
    /\ transpose once = (Return tt, set_header (Seq ListK hs) self).
Proof.
  intros Hh Hlen Hcols.
  assert (Forall (fun c => col_kind c = ListK) (columns self)) as Hlists.
  { eapply Forall_impl; [exact Hcols|]. by intros c [? _]. }
  exists (transposed self).
  split; [by apply (transpose_header_run self k hs)|].
  set (cols := col_items <$> columns self).
  set (E := zip_with cons hs cols).
  assert (length hs = length cols) as Hlen'.
  { unfold cols. by rewrite length_fmap. }
  assert (groups self = zip_longest E (PyStr "")) as HG.
  { unfold groups, header_items. rewrite Hh. fold cols.
    by rewrite enlarge_same_length. }
  assert (Forall (fun g => g <> []) (groups self)) as Hne.
  { unfold groups. apply zip_longest_rows_nonempty. }
  assert (Forall (fun c => length c = S n) E) as Hrect.
  { unfold E. apply Forall_forall. intros g Hg.
    apply elem_of_lookup_zip_with in Hg as (i & h & c & -> & _ & Hc).
    unfold cols in Hc. rewrite list_lookup_fmap in Hc.
    destruct (columns self !! i) as [c0|] eqn:Hc0; [|done].
    cbn in Hc. injection Hc as <-.
    rewrite Forall_lookup in Hcols. destruct (Hcols i c0 Hc0) as [_ Hn].
    cbn. by rewrite Hn. }
  assert (groups (transposed self) = E) as HG'.
  { unfold groups at 1. unfold transposed at 1 2.
    cbn [header_items header columns set_columns set_header].
    rewrite <- !list_fmap_compose.
    assert ((col_items ∘ (fun g => Column ListK (drop 1 g))) <$> groups self
            = (fun g => drop 1 g) <$> groups self) as ->.
    { by apply list_fmap_ext. }
    rewrite enlarge_same_length by (by rewrite !length_fmap).
    rewrite split_groups by done. rewrite HG.
    apply (zip_longest_involutive _ (S n)); [done|lia]. }
  rewrite (transpose_header_run (transposed self) ListK
             ((fun g => nth 0 g (PyStr "")) <$> groups self));
    [|done|apply transposed_columns_lists].
  f_equal. unfold transposed at 1. rewrite HG'.
  destruct (firsts_zip_with_cons hs cols Hlen') as [HF HT]. fold E in HF, HT.
  assert ((fun g => Column ListK (drop 1 g)) <$> E = columns self) as ->.
  { rewrite <- (list_columns_id (columns self)) by done. fold cols.
    rewrite <- HT. by rewrite <- list_fmap_compose. }
  rewrite HF. reflexivity.
Qed.

Lemma transpose_twice_with_header_witness :
  let self :=
    mkSimpleTable (Atom (PyStr "T")) (Seq TupleK [PyStr "X"; PyStr "Y"])
                  [Column ListK [PyInt 1; PyInt 2; PyInt 3];
                   Column ListK [PyStr "a"; PyStr "b"; PyStr "c"]]
                  (Atom (PyInt 4)) (Atom PyNone) in
  exists once,
    transpose self = (Return tt, once)
    /\ transpose once
       = (Return tt, set_header (Seq ListK [PyStr "X"; PyStr "Y"]) self).
Proof.
  intros self.
  apply (transpose_twice_with_header self TupleK [PyStr "X"; PyStr "Y"] 3).
  - reflexivity.
  - reflexivity.
  - repeat constructor.
Defined.

(** ** When [transpose] raises *)

Lemma transpose_empty_header_run self k :
  header self = Seq k [] ->
  transpose self = (Return tt, transposed self).
Proof.
  intros Hh. unfold transpose.
  unfold bind at 1. unfold get at 1. rewrite Hh. cbn [is_none].
  unfold bind at 1. unfold lift at 1. cbn [py_iter].
  unfold bind at 1. cbn [enumerate length seq zip zip_with for_each for_in].
  unfold ret at 1.
  unfold bind at 1. unfold get at 1.
  unfold bind at 1. unfold modify at 1.
  unfold bind at 1. unfold modify at 1.
  unfold bind at 1. unfold get at 1. cbn [columns set_columns set_header].
  unfold bind at 1. unfold zipped.
  rewrite (header_loop _ []); [|done|apply zip_longest_rows_nonempty].
  unfold bind at 1. unfold get at 1. cbn [columns set_columns set_header].
  unfold enumerate. rewrite (tail_loop _ 0 []); [|done|done].
  unfold transposed, groups, header_items. rewrite Hh.
  cbn. by rewrite <- list_fmap_compose.
Qed.

(** The first loop stops at once on a tuple: [insert] is missing. *)
Lemma prepend_loop_tuple (h : item) hs c cs self :
  columns self = c :: cs ->
  col_kind c = TupleK ->
  for_each (enumerate (h :: hs))
    (fun '(index, item) =>
       let! cols := get columns in
       if bool_decide (index < length cols)%nat then
         match cols !! index with
         | Some c =>
             let! c' := lift (insert_front item c) in
             modify (set_columns (<[index := c']> cols))
         | None => raise (Exn IndexError None)
         end
       else append_column (Column ListK [item])) self
  = (Raised (Exn AttributeError None), self).
Proof.
  intros Hcols Hc.
  cbn [enumerate length seq zip zip_with for_each for_in].
  unfold bind at 1. unfold bind at 1. unfold get at 1. rewrite Hcols.
  rewrite bool_decide_eq_true_2 by (cbn; lia).
  cbn [lookup list_lookup]. unfold bind at 1. unfold lift at 1.
  unfold insert_front. by rewrite Hc.
Qed.

(** X13: when the header is not empty and the first column is a tuple, as it
    is after a transposition without header, [transpose] raises
    [AttributeError] at the first header item and leaves the instance
    exactly as it was. *)
Theorem transpose_tuple_column_raises (self : SimpleTable) k h hs c cs :
  header self = Seq k (h :: hs) ->
  columns self = c :: cs ->
  col_kind c = TupleK ->
  transpose self = (Raised (Exn AttributeError None), self).
Proof.
  intros Hh Hcols Hc. unfold transpose.
  unfold bind at 1. unfold get at 1. rewrite Hh. cbn [is_none].
  unfold bind at 1. unfold lift at 1. cbn [py_iter].
  unfold bind at 1.
  by rewrite (prepend_loop_tuple h hs c cs self Hcols Hc).
Qed.

Lemma transpose_tuple_column_raises_witness :
  let self :=
    mkSimpleTable (Atom PyNone) (Seq ListK [PyStr "a"; PyStr "b"])
                  [Column TupleK [PyInt 1; PyInt 3]; Column TupleK [PyInt 2; PyInt 4]]
                  (Atom PyNone) (Atom (PyInt 1)) in
  transpose self = (Raised (Exn AttributeError None), self).
Proof.
  intros self.
  apply (transpose_tuple_column_raises
           self ListK (PyStr "a") [PyStr "b"]
           (Column TupleK [PyInt 1; PyInt 3]) [Column TupleK [PyInt 2; PyInt 4]]);
    reflexivity.
Defined.

(** ** Instances the methods reach *)

Lemma zipped_tuples cs : Forall (fun c => col_kind c = TupleK) (zipped cs).
Proof. unfold zipped. apply Forall_fmap, Forall_forall. done. Qed.

(** What [transpose] does on a well-typed instance whose columns are all
    lists or all tuples. *)
Lemma transpose_cases self :
  well_typed self -> uniform self ->
  (is_none (header self) = true
   /\ transpose self = (Return tt, set_columns (zipped (columns self)) self))
  \/ (is_none (header self) = false
      /\ transpose self = (Return tt, transposed self))
  \/ (transpose self = (Raised (Exn AttributeError None), self)
      /\ header_items self <> [] /\ columns self <> []
      /\ Forall (fun c => col_kind c = TupleK) (columns self)).
Proof.
  intros (_ & Hh & _) Hu.
  destruct (is_none (header self)) eqn:Hnone.
  { left. split; [done|]. by apply transpose_no_header_run. }
  destruct (header self) as [[]|k hs] eqn:Hhs; try done.
  destruct Hu as [Hlists | Htuples].
  { right. left. split; [done|]. by apply (transpose_header_run self k hs). }
  destruct hs as [|h hs].
  { right. left. split; [done|]. by apply (transpose_empty_header_run self k). }
  destruct (columns self) as [|c cs] eqn:Hcols.
  { right. left. split; [done|].
    apply (transpose_header_run self k (h :: hs)); [done|].
    rewrite Hcols. constructor. }
  right. right. split; [|split; [|split]].
  - apply Forall_cons in Htuples as [Hc _].
    unfold transpose.
    unfold bind at 1. unfold get at 1. rewrite Hhs. cbn [is_none].
    unfold bind at 1. unfold lift at 1. cbn [py_iter].
    unfold bind at 1.
    by rewrite (prepend_loop_tuple h hs c cs self Hcols Hc).
  - unfold header_items. by rewrite Hhs.
  - done.
  - done.
Qed.

Lemma reachable_uniform self : reachable self -> uniform self.
Proof.
  induction 1 as [cols kw self Hnew
                 |kw self self' Hreach IH Hset
                 |self o self' Hreach IH Htr
                 |capacity self o self' Hreach IH Hstr].
  - left. by apply (new_columns_lists cols kw).
  - destruct (set_frame kw (columns self) (auto_columnwidth self)
                        self (Return tt) self') as [Hc _]; [done|done|].
    unfold uniform. by rewrite Hc.
  - pose proof (reachable_well_typed self Hreach) as Hwt.
    destruct (transpose_cases self Hwt IH)
      as [[_ Hrun] | [[_ Hrun] | [Hrun (_ & _ & Htuples)]]];
      rewrite Hrun in Htr; injection Htr as _ <-.
    + right. apply zipped_tuples.
    + left. apply transposed_columns_lists.
    + by right.
  - destruct (str_frame capacity (title self) (header self) (columns self)
                        (columnwidth self) self o self')
      as (_ & _ & Hc & _); [done|done|].
    unfold uniform. by rewrite Hc.
Qed.

(** X14: every instance reached by a constructor call that returned, calls
    of [set] that returned and calls of [transpose] and [__str__] has
    attributes that passed their type checks, and its columns are either all
    lists or all tuples. *)
Theorem reachable_invariant (self : SimpleTable) :
  reachable self -> well_typed self /\ uniform self.
Proof.
  intros Hreach. split.
  - by apply reachable_well_typed.
  - by apply reachable_uniform.
Qed.

Lemma reachable_invariant_witness :
  well_typed
    (mkSimpleTable (Atom PyNone) (Atom PyNone)
                   [Column TupleK [PyStr "a"; PyStr "ccc"];
                    Column TupleK [PyStr "bb"; PyStr ""]]
                   (Atom PyNone) (Atom (PyInt 3)))
  /\ uniform
       (mkSimpleTable (Atom PyNone) (Atom PyNone)
                      [Column TupleK [PyStr "a"; PyStr "ccc"];
                       Column TupleK [PyStr "bb"; PyStr ""]]
                      (Atom PyNone) (Atom (PyInt 3))).
Proof.
  apply reachable_invariant.
  apply (reach_transpose
           (mkSimpleTable (Atom PyNone) (Atom PyNone)
                          [Column ListK [PyStr "a"; PyStr "bb"];
                           Column ListK [PyStr "ccc"]]
                          (Atom PyNone) (Atom (PyInt 3)))
           (Return tt)).
  - apply (reach_new example_columns []). reflexivity.
  - reflexivity.
Defined.

(** X15: on a reachable instance [transpose] either returns, with the
    zipped columns when there is no header and the header folded in when
    there is one, or it raises [AttributeError] and leaves the instance
    unchanged; it raises exactly when the header and the columns are not
    empty and the columns are tuples.  No other exception is possible and the
    instance is never left half transposed. *)
Theorem reachable_transpose_outcome (self : SimpleTable) :
  reachable self ->
  (is_none (header self) = true
   /\ transpose self = (Return tt, set_columns (zipped (columns self)) self))
  \/ (is_none (header self) = false
      /\ transpose self = (Return tt, transposed self))
  \/ (transpose self = (Raised (Exn AttributeError None), self)
      /\ header_items self <> [] /\ columns self <> []
      /\ Forall (fun c => col_kind c = TupleK) (columns self)).
Proof.
  intros Hreach. apply transpose_cases.
  - by apply reachable_well_typed.
  - by apply reachable_uniform.
Qed.

Lemma reachable_transpose_outcome_witness :
  let self :=
    mkSimpleTable (Atom PyNone) (Atom PyNone)
                  [Column ListK [PyStr "a"; PyStr "bb"]; Column ListK [PyStr "ccc"]]
                  (Atom PyNone) (Atom (PyInt 3)) in
  (is_none (header self) = true
   /\ transpose self = (Return tt, set_columns (zipped (columns self)) self))
  \/ (is_none (header self) = false
      /\ transpose self = (Return tt, transposed self))
  \/ (transpose self = (Raised (Exn AttributeError None), self)
      /\ header_items self <> [] /\ columns self <> []
      /\ Forall (fun c => col_kind c = TupleK) (columns self)).
Proof.
  intros self. apply (reachable_transpose_outcome self).
  apply (reach_new example_columns []). reflexivity.
Defined.



(** ** The shape of a table transposed with its header *)

Lemma length_enlarge hs (cols : list (list item)) :
  length (enlarge hs cols) = (length hs `max` length cols)%nat.
Proof.
  revert cols. induction hs as [|h hs IH]; intros [|c cols]; cbn; try done.
  all: rewrite IH; cbn; lia.
Qed.

Lemma nth_seq_pad_to (c : list item) n :
  (length c <= n)%nat ->
  (fun i => nth i c (PyStr "")) <$> seq 0 n = pad_to n c.
Proof.
  intros Hc. rewrite <- (nth_seq_id (pad_to n c) (PyStr "")).
  rewrite length_pad_to by done.
  apply list_fmap_ext. intros _ i _. by rewrite nth_pad_to.
Qed.

Lemma firsts_zip_longest (e : list item) es :
  (fun g => nth 0 g (PyStr "")) <$> zip_longest (e :: es) (PyStr "")
  = pad_to (longest (e :: es)) e.
Proof.
  unfold zip_longest. rewrite <- list_fmap_compose.
  rewrite <- nth_seq_pad_to by (rewrite longest_cons; lia).
  by apply list_fmap_ext.
Qed.

(** X17: transposing a table that has a header and list columns makes the
    former first column, with its header item in front and filled up with
    empty strings, the new header; there are as many new columns as the new
    header has items, and each new column is a list with one item for every
    former column but the first ([max(header items, columns) - 1]). *)
Theorem transpose_first_column_becomes_header (self : SimpleTable) k h hs :
  header self = Seq k (h :: hs) ->
  Forall (fun c => col_kind c = ListK) (columns self) ->
  let first := h :: default [] ((col_items <$> columns self) !! 0%nat) in
  exists after L,
    transpose self = (Return tt, after)
    /\ (length first <= L)%nat
    /\ header after = Seq ListK (pad_to L first)
    /\ length (columns after) = L
    /\ Forall (fun c => col_kind c = ListK
                        /\ length (col_items c)
                           = (S (length hs) `max` length (columns self) - 1)%nat)
              (columns after).
Proof.
  intros Hh Hlists first.
  set (E := enlarge (h :: hs) (col_items <$> columns self)).
  assert (exists es, E = first :: es) as [es HE].
  { unfold E, first. destruct (col_items <$> columns self); cbn; by eexists. }
  exists (transposed self), (longest E). 
  split; [by apply (transpose_header_run self k (h :: hs))|].
  assert (groups self = zip_longest E (PyStr "")) as HG.
  { unfold groups, header_items. by rewrite Hh. }
  split; [rewrite HE, longest_cons; lia|].
  unfold transposed. cbn [header columns set_columns set_header].
  rewrite HG. split; [|split].
  - rewrite HE. by rewrite firsts_zip_longest.
  - by rewrite length_fmap, length_zip_longest.
  - apply Forall_fmap.
    eapply Forall_impl; [apply zip_longest_rows_length|].
    intros g Hg. cbn. split; [done|].
    rewrite length_drop, Hg. unfold E.
    rewrite length_enlarge, length_fmap. cbn [length]. lia.
Qed.

Lemma transpose_first_column_becomes_header_witness :
  let self :=
    mkSimpleTable (Atom PyNone) (Seq ListK [PyStr "X"; PyStr "Y"; PyStr "Z"])
                  [Column ListK [PyStr "a"; PyStr "bb"]; Column ListK [PyStr "ccc"]]
                  (Atom PyNone) (Atom PyNone) in
  let first := PyStr "X" :: default [] ((col_items <$> columns self) !! 0%nat) in
  exists after L,
    transpose self = (Return tt, after)
    /\ (length first <= L)%nat
    /\ header after = Seq ListK (pad_to L first)
    /\ length (columns after) = L
    /\ Forall (fun c => col_kind c = ListK
                        /\ length (col_items c)
                           = (S (length [PyStr "Y"; PyStr "Z"])
                                `max` length (columns self) - 1)%nat)
              (columns after).
Proof.
  intros self.
  apply (transpose_first_column_becomes_header
           self ListK (PyStr "X") [PyStr "Y"; PyStr "Z"]).
  - reflexivity.
  - repeat constructor.
Defined.

(** ** [__eq__] as a relation *)

Lemma int_of_bool_inj a b : int_of_bool a = int_of_bool b -> a = b.
Proof. by destruct a, b. Qed.

Lemma item_eqb_sym x y : item_eqb x y = item_eqb y x.
Proof.
  destruct x, y; cbn; try done; apply bool_decide_ext; split; congruence.
Qed.

Lemma item_eqb_trans x y z :
  item_eqb x y = true -> item_eqb y z = true -> item_eqb x z = true.
Proof.
  destruct x, y, z; cbn; try done;
    rewrite !bool_decide_eq_true; intros; subst; try done.
  all: try (f_equal; by apply int_of_bool_inj).
  all: by apply int_of_bool_inj.
Qed.

Lemma items_eqb_sym xs ys : items_eqb xs ys = items_eqb ys xs.
Proof.
  revert ys. induction xs as [|x xs IH]; intros [|y ys]; cbn; try done.
  by rewrite item_eqb_sym, IH.
Qed.

Lemma items_eqb_trans xs ys zs :
  items_eqb xs ys = true -> items_eqb ys zs = true -> items_eqb xs zs = true.
Proof.
  revert ys zs. induction xs as [|x xs IH]; intros [|y ys] [|z zs]; cbn; try done.
  intros [Hxy Hxs]%andb_true_iff [Hyz Hys]%andb_true_iff.
  apply andb_true_iff. split.
  - by apply (item_eqb_trans x y z).
  - by apply (IH ys zs).
Qed.

Lemma value_eqb_sym v w : value_eqb v w = value_eqb w v.
Proof.
  destruct v, w; cbn; try done; [apply item_eqb_sym|].
  rewrite items_eqb_sym. f_equal. apply bool_decide_ext. split; congruence.
Qed.

Lemma value_eqb_trans u v w :
  value_eqb u v = true -> value_eqb v w = true -> value_eqb u w = true.
Proof.
  destruct u, v, w; cbn; try done; [apply item_eqb_trans|].
  intros [Hk Hxs]%andb_true_iff [Hk' Hys]%andb_true_iff.
  apply bool_decide_eq_true in Hk, Hk'. subst.
  apply andb_true_iff. split; [by apply bool_decide_eq_true|].
  by apply (items_eqb_trans xs xs0 xs1).
Qed.

Lemma columns_eqb_sym cs ds : columns_eqb cs ds = columns_eqb ds cs.
Proof.
  revert ds. induction cs as [|c cs IH]; intros [|d ds]; cbn; try done.
  rewrite IH. unfold column_eqb. rewrite items_eqb_sym. do 2 f_equal.
  apply bool_decide_ext. split; congruence.
Qed.

Lemma columns_eqb_trans cs ds es :
  columns_eqb cs ds = true -> columns_eqb ds es = true ->
  columns_eqb cs es = true.
Proof.
  revert ds es. induction cs as [|c cs IH]; intros [|d ds] [|e es]; cbn; try done.
  unfold column_eqb.
  intros [[Hk Hi]%andb_true_iff Hcs]%andb_true_iff
         [[Hk' Hi']%andb_true_iff Hds]%andb_true_iff.
  apply bool_decide_eq_true in Hk, Hk'.
  rewrite (IH ds es) by done.
  rewrite (items_eqb_trans _ _ _ Hi Hi').
  rewrite bool_decide_eq_true_2 by congruence. done.
Qed.

(** X18: on the modelled values [==] between instances is an equivalence
    relation: every instance equals itself, the answer does not depend on the
    side an instance is written on, and two instances equal to a third are
    equal.  The self-comparison of the column width does not break this. *)
Theorem eq_is_equivalence :
  (forall a, __eq__ a a = true)
  /\ (forall a b, __eq__ a b = __eq__ b a)
  /\ (forall a b c, __eq__ a b = true -> __eq__ b c = true -> __eq__ a c = true).
Proof.
  unfold __eq__. split; [|split].
  - intros a. by rewrite columns_eqb_refl, !value_eqb_refl.
  - intros a b. rewrite !value_eqb_refl.
    by rewrite columns_eqb_sym, (value_eqb_sym (header a)),
      (value_eqb_sym (title a)).
  - intros a b c. rewrite !value_eqb_refl, !andb_true_r, !andb_true_iff.
    intros [[Hc Hh] Ht] [[Hc' Hh'] Ht']. split; [split|].
    + by apply (columns_eqb_trans _ (columns b)).
    + by apply (value_eqb_trans _ (header b)).
    + by apply (value_eqb_trans _ (title b)).
Qed.

(** ** Rendering after a call of [set] that raised *)

Lemma new_transpose_returns_witness :
  exists after,
    transpose
      (mkSimpleTable (Atom PyNone) (Atom PyNone)
                     [Column ListK [PyStr "a"; PyStr "bb"]; Column ListK [PyStr "ccc"]]
                     (Atom PyNone) (Atom (PyInt 3)))
    = (Return tt, after).
Proof.
  apply (new_transpose_returns example_columns []). reflexivity.
Defined.



